(** * Layer-to-PSD pipeline: a shallow embedding and its verified properties

    The development follows the three source files of the application:

    - [types.ts]: the layer data model ([LayerType], [BoundingBox], [Layer]);
    - [services/psdService.ts]: the document assembler ([loadImageData],
      [loadImageDataFromBase64], [exportToPsd]);
    - [services/geminiService.ts]: the two clients of the remote model
      ([analyzeImageForLayers], [extractImageLayer]).

    JavaScript numbers are modelled by the rationals they denote ([Q]) where
    they hold normalized coordinates and as integers ([Z]) where they hold
    pixel counts.  The assembler is embedded with its products of a
    coordinate and a canvas dimension evaluated exactly ([rect]); the same
    products as the source evaluates them, rounded to double precision, are
    [rectDouble].  Promises that reject and statements that throw are
    modelled by the [result] type. *)

From Stdlib Require Import ZArith QArith Qround Qabs Qpower Lia Lqa String Ascii List.
From stdpp Require Import base option list strings.

Local Open Scope string_scope.
Local Open Scope list_scope.
Local Open Scope Z_scope.

(** ** JavaScript errors and fallible computations *)

(** A thrown value: the error class name and its message. *)
Record JsError := mkJsError { errorClass : string; message : string }.

Definition Error (msg : string) : JsError := mkJsError "Error" msg.
Definition TypeError (msg : string) : JsError := mkJsError "TypeError" msg.

Inductive result (A : Type) : Type :=
| Ok (a : A)
| Err (e : JsError).
Arguments Ok {A} a.
Arguments Err {A} e.

Definition bind {A B} (m : result A) (k : A -> result B) : result B :=
  match m with
  | Ok a => k a
  | Err e => Err e
  end.

Declare Scope js_scope.
Delimit Scope js_scope with js.
Notation "'await' x <- m ;; k" := (bind m (fun x => k))
  (at level 100, x pattern, m at next level, right associativity) : js_scope.
Local Open Scope js_scope.

(** [for (const x of xs) body], the loop state threaded explicitly; a throw in
    the body leaves the loop at once. *)
Fixpoint forOf {A S} (body : S -> A -> result S) (xs : list A) (s : S) : result S :=
  match xs with
  | [] => Ok s
  | x :: rest => await s' <- body s x ;; forOf body rest s'
  end.

(** ** Numbers *)

(** [Math.round]: the nearest integer, ties towards plus infinity. *)
Definition Math_round (q : Q) : Z := Qfloor (q + (1 # 2)).

(** *** Double precision *)

Definition pow2 (e : Z) : Q := (2 ^ e)%Q.

(** The exponent of the binade of a positive number: the greatest [e] with
    [2^e <= q]. *)
Definition floorLog2 (q : Q) : Z :=
  let e := Z.log2 (Qnum q) - Z.log2 (Z.pos (Qden q)) in
  if Qle_bool (pow2 e) q then e else e - 1.

(** The nearest integer, ties to the even one. *)
Definition roundHalfEven (q : Q) : Z :=
  let f := Qfloor q in
  match (q - inject_Z f ?= 1 # 2)%Q with
  | Lt => f
  | Gt => f + 1
  | Eq => if Z.even f then f else f + 1
  end.

(** The double nearest to a real number, ties to the even significand: a
    significand of 53 bits, and an exponent that does not go below that of
    the subnormal numbers.  Overflow to [Infinity], which starts at [2^1024],
    is out of reach of the numbers rounded here. *)
Definition roundToDouble (q : Q) : Q :=
  if Qeq_bool q 0 then 0%Q
  else
    let e := Z.max (floorLog2 (Qabs q)) (-1022) in
    let ulp := pow2 (e - 52) in
    (inject_Z (roundHalfEven (q / ulp)) * ulp)%Q.

(** The product [a * b] of two Numbers. *)
Definition timesDouble (a b : Q) : Q := roundToDouble (a * b).

(** [Math.round(v * dimension)] as the source evaluates it. *)
Definition toAbsolute (v : Q) (dimension : Z) : Z :=
  Math_round (timesDouble v (inject_Z dimension)).

(** ** [types.ts] *)

Inductive LayerType := image | shape | text.

Definition LayerType_eqb (a b : LayerType) : bool :=
  match a, b with
  | image, image | shape, shape | text, text => true
  | _, _ => false
  end.

(** The string a [LayerType] is at run time. *)
Definition typeString (t : LayerType) : string :=
  match t with
  | image => "image"
  | shape => "shape"
  | text => "text"
  end.

Module BoundingBox.
Record t := mk { x : Q; y : Q; width : Q; height : Q }.
End BoundingBox.

(** Modelled from the spec: the field [extractedImage] is not declared in the
    [types.ts] at hand, while the assembler and the session read and write it;
    it is the optional base64 payload cached by the caller of the extraction
    client. *)
Record Layer := mkLayer {
  name : string;
  description : string;
  type : LayerType;
  boundingBox : BoundingBox.t;
  extractedImage : option string
}.

(** Truthiness of an optional string: [undefined] and the empty string are
    falsy. *)
Definition truthyString (s : option string) : bool :=
  match s with
  | None => false
  | Some s => negb (bool_decide (s = EmptyString))
  end.

(** [String.prototype.toUpperCase] on ASCII letters; other characters are
    left as they are. *)
Definition upperAscii (c : ascii) : ascii :=
  let n := nat_of_ascii c in
  if (97 <=? n)%nat && (n <=? 122)%nat then ascii_of_nat (n - 32) else c.

Fixpoint toUpperCase (s : string) : string :=
  match s with
  | EmptyString => EmptyString
  | String c rest => String (upperAscii c) (toUpperCase rest)
  end.

(** ** Pixels, image data and the 2D canvas *)

Record RGBA := mkRGBA { red : Z; green : Z; blue : Z; alpha : Z }.

Definition transparent : RGBA := mkRGBA 0 0 0 0.

(** [ImageData]: one [RGBA] element stands for four consecutive bytes of the
    [Uint8ClampedArray], rows from top to bottom. *)
Module ImageData.
Record t := mk { data : list RGBA; width : Z; height : Z }.
End ImageData.

(** The pixels of a [w] by [h] area, row by row, read through [f col row]. *)
Definition pixels (w h : Z) (f : Z -> Z -> RGBA) : list RGBA :=
  concat (map (fun py => map (fun px => f px py) (seqZ 0 w)) (seqZ 0 h)).

(** A CSS colour [rgba(r, g, b, a)] with [a] between 0 and 1. *)
Record FillStyle := rgba { fillRed : Z; fillGreen : Z; fillBlue : Z; fillAlpha : Q }.

(** An [OffscreenCanvas] together with its 2D context.  The backing store
    keeps each pixel premultiplied by its alpha, eight bits a channel. *)
Record Context2D := mkContext {
  canvasWidth : Z;
  canvasHeight : Z;
  fillStyle : FillStyle;
  pixelAt : Z -> Z -> RGBA
}.

(** [new OffscreenCanvas(w, h)]: transparent black, fill style black. *)
Definition OffscreenCanvas (w h : Z) : Context2D :=
  mkContext w h (rgba 0 0 0 1) (fun _ _ => transparent).

(** Whether the rectangle with corner [(x, y)] and signed extent [(w, h)]
    covers the pixel [(px, py)]. *)
Definition covers (x y w h px py : Z) : bool :=
  (Z.min x (x + w) <=? px) && (px <? Z.max x (x + w)) &&
  (Z.min y (y + h) <=? py) && (py <? Z.max y (y + h)).

Definition clearRect (ctx : Context2D) (x y w h : Z) : Context2D :=
  mkContext (canvasWidth ctx) (canvasHeight ctx) (fillStyle ctx)
    (fun px py => if covers x y w h px py then transparent else pixelAt ctx px py).

(** A channel scaled by an 8-bit alpha, rounded to the nearest of the 256
    levels. *)
Definition premultiply (c a : Z) : Z := Math_round (inject_Z (c * a) / 255).

(** The inverse scaling, as [getImageData] applies it to a stored channel. *)
Definition unpremultiply (p a : Z) : Z :=
  Z.min 255 (Math_round (inject_Z (p * 255) / inject_Z a)).

(** The default compositing operator, source-over, of a fill colour onto a
    stored (premultiplied) pixel: the colour is brought to an 8-bit alpha and
    premultiplied, the destination is scaled by what the source leaves. *)
Definition sourceOver (src : FillStyle) (dst : RGBA) : RGBA :=
  let sa := Math_round (fillAlpha src * 255)%Q in
  let over (s d : Z) := premultiply s sa + premultiply d (255 - sa) in
  mkRGBA (over (fillRed src) (red dst))
         (over (fillGreen src) (green dst))
         (over (fillBlue src) (blue dst))
         (sa + premultiply (alpha dst) (255 - sa)).

(** What [getImageData] returns for a stored pixel: the channels divided by
    alpha again.  The passage through the premultiplied store can move a
    channel by one level. *)
Definition readBack (p : RGBA) : RGBA :=
  if alpha p =? 0 then transparent
  else mkRGBA (unpremultiply (red p) (alpha p))
              (unpremultiply (green p) (alpha p))
              (unpremultiply (blue p) (alpha p))
              (alpha p).

Definition fillRect (ctx : Context2D) (x y w h : Z) : Context2D :=
  mkContext (canvasWidth ctx) (canvasHeight ctx) (fillStyle ctx)
    (fun px py =>
       if covers x y w h px py
       then sourceOver (fillStyle ctx) (pixelAt ctx px py)
       else pixelAt ctx px py).

Definition set_fillStyle (ctx : Context2D) (s : FillStyle) : Context2D :=
  mkContext (canvasWidth ctx) (canvasHeight ctx) s (pixelAt ctx).

(** [ctx.getImageData(sx, sy, sw, sh)]: a fresh copy of the pixels of the
    area, read back from the store; pixels outside the canvas read as
    transparent black. *)
Definition getImageData (ctx : Context2D) (sx sy sw sh : Z) : ImageData.t :=
  ImageData.mk
    (pixels sw sh (fun px py =>
       if covers 0 0 (canvasWidth ctx) (canvasHeight ctx) (sx + px) (sy + py)
       then readBack (pixelAt ctx (sx + px) (sy + py))
       else transparent))
    sw sh.

(** ** The [ag-psd] document model *)

(** [PsdLayer] and [Psd] of [ag-psd], with the fields the assembler sets.
    [effectiveOpacity] is modelled from the spec, the library not being part
    of the sources: a layer without [opacity] is fully opaque. *)
Module AgPsd.
Record Layer := mkLayer {
  name : string;
  imageData : list RGBA;
  left : Z;
  top : Z;
  right : Z;
  bottom : Z;
  opacity : option Q
}.

Record Psd := mkPsd { width : Z; height : Z; children : list Layer }.

Definition effectiveOpacity (l : Layer) : Q := default 1%Q (opacity l).
End AgPsd.

(** ** The browser and library operations the assembler calls *)

(** The two places where the assembler creates a canvas: inside
    [loadImageData] for the bitmap fetched from a URL, and the scratch canvas
    of the layer guides. *)
Inductive CanvasUse :=
| BitmapCanvas (url : string)
| LayerCanvas.

(** What the assembler needs from its surroundings: fetching a URL and
    decoding it into a bitmap ([fetch], [blob], [createImageBitmap], with the
    decoded pixels), obtaining a 2D context for a new canvas ([getContext]
    returns [null] when it cannot), and the [ag-psd] encoder. *)
Class Browser := {
  createImageBitmap : string -> result ImageData.t;
  getContext2d : CanvasUse -> Z -> Z -> bool;
  writePsd : AgPsd.Psd -> list Z
}.

(** ** [services/psdService.ts] *)

Definition typeToRgba (t : LayerType) : Z * Z * Z * Z :=
  match t with
  | image => (74, 222, 128, 100)
  | shape => (250, 204, 21, 100)
  | text => (248, 113, 113, 100)
  end.

(** The pixels [createImageBitmap] carries are those that drawing the bitmap
    on a fresh canvas of its own size and reading the canvas back gives. *)
Definition loadImageData `{Browser} (url : string) : result ImageData.t :=
  await imageBitmap <- createImageBitmap url ;;
  if negb (getContext2d (BitmapCanvas url)
             (ImageData.width imageBitmap) (ImageData.height imageBitmap))
  then Err (Error "Could not create canvas context")
  else Ok (ImageData.mk (ImageData.data imageBitmap)
                        (ImageData.width imageBitmap)
                        (ImageData.height imageBitmap)).

Definition loadImageDataFromBase64 `{Browser} (base64 : string) : result ImageData.t :=
  loadImageData ("data:image/png;base64," +:+ base64).

(** The local object [rect] of the guide branch. *)
Module Rect.
Record t := mk { x : Z; y : Z; w : Z; h : Z }.
End Rect.

Definition rect (layer : Layer) (width height : Z) : Rect.t :=
  Rect.mk
    (Math_round (BoundingBox.x (boundingBox layer) * inject_Z width))
    (Math_round (BoundingBox.y (boundingBox layer) * inject_Z height))
    (Math_round (BoundingBox.width (boundingBox layer) * inject_Z width))
    (Math_round (BoundingBox.height (boundingBox layer) * inject_Z height)).

(** [rect] with each product rounded to double precision, as the source
    evaluates it.  It differs from [rect] where an exact product lies within
    the rounding error of a half-integer, and then by one pixel. *)
Definition rectDouble (layer : Layer) (width height : Z) : Rect.t :=
  Rect.mk
    (toAbsolute (BoundingBox.x (boundingBox layer)) width)
    (toAbsolute (BoundingBox.y (boundingBox layer)) height)
    (toAbsolute (BoundingBox.width (boundingBox layer)) width)
    (toAbsolute (BoundingBox.height (boundingBox layer)) height).

(** The test of the first branch of the loop,
    [layer.type === 'image' && layer.extractedImage]. *)
Definition isExtractedImage (layer : Layer) : bool :=
  LayerType_eqb (type layer) image && truthyString (extractedImage layer).

(** The state of the loop: the shared scratch context and the array
    [psdLayers], which grows by [push]. *)
Record LoopState := mkLoopState { ctx : Context2D; psdLayers : list AgPsd.Layer }.

Definition push (st : LoopState) (l : AgPsd.Layer) : LoopState :=
  mkLoopState (ctx st) (psdLayers st ++ [l]).

(** One iteration of [for (const layer of layers)]. *)
Definition exportLayer `{Browser} (width height : Z) (st : LoopState) (layer : Layer)
  : result LoopState :=
  if isExtractedImage layer then
    await extracted <- loadImageDataFromBase64 (default EmptyString (extractedImage layer)) ;;
    let left := Math_round (BoundingBox.x (boundingBox layer) * inject_Z width) in
    let top := Math_round (BoundingBox.y (boundingBox layer) * inject_Z height) in
    Ok (push st
          (AgPsd.mkLayer ("[Extracted] " +:+ name layer)
                         (ImageData.data extracted)
                         left top
                         (left + ImageData.width extracted)
                         (top + ImageData.height extracted)
                         None))
  else
    let c := clearRect (ctx st) 0 0 width height in
    let '(r, g, b, a) := typeToRgba (type layer) in
    let c := set_fillStyle c (rgba r g b (inject_Z a / 255)) in
    let rc := rect layer width height in
    let c := fillRect c (Rect.x rc) (Rect.y rc) (Rect.w rc) (Rect.h rc) in
    let layerImageData := ImageData.data (getImageData c 0 0 width height) in
    Ok (push (mkLoopState c (psdLayers st))
          (AgPsd.mkLayer ("[" +:+ toUpperCase (typeString (type layer)) +:+ "] " +:+ name layer)
                         layerImageData
                         0 0 width height
                         (Some (7 # 10)))).

(** The object handed to [writePsd]. *)
Definition exportToPsd_document `{Browser} (imageUrl : string) (layers : list Layer)
  : result AgPsd.Psd :=
  await base <- loadImageData imageUrl ;;
  let width := ImageData.width base in
  let height := ImageData.height base in
  let psdLayers0 :=
    [AgPsd.mkLayer "Original Image" (ImageData.data base) 0 0 width height None] in
  if negb (getContext2d LayerCanvas width height)
  then Err (Error "Could not create layer canvas context")
  else
    await st <- forOf (exportLayer width height) layers
                  (mkLoopState (OffscreenCanvas width height) psdLayers0) ;;
    Ok (AgPsd.mkPsd width height (reverse (psdLayers st))).

Definition exportToPsd `{Browser} (imageUrl : string) (layers : list Layer)
  : result (list Z) :=
  await psd <- exportToPsd_document imageUrl layers ;;
  Ok (writePsd psd).

(** ** JSON values and the remote model's interface *)

(** The values [JSON.parse] produces.  An object keeps its members in an
    association list; a key is looked up from the front. *)
#[local] Set Warnings "-register-all".
Inductive Json :=
| JNull
| JBool (b : bool)
| JNumber (q : Q)
| JString (s : string)
| JArray (items : list Json)
| JObject (members : list (string * Json)).

Fixpoint assoc (key : string) (members : list (string * Json)) : option Json :=
  match members with
  | [] => None
  | (k, v) :: rest => if bool_decide (k = key) then Some v else assoc key rest
  end.

(** Reading [item.key]: [None] is [undefined]; reading a property of [null]
    throws. *)
Definition getProp (item : Json) (key : string) : result (option Json) :=
  match item with
  | JNull => Err (TypeError ("Cannot read properties of null (reading '" +:+ key +:+ "')"))
  | JObject members => Ok (assoc key members)
  | _ => Ok None
  end.

(** Truthiness of a value read from parsed JSON. *)
Definition truthy (v : option Json) : bool :=
  match v with
  | None => false
  | Some JNull => false
  | Some (JBool b) => b
  | Some (JNumber q) => negb (Qeq_bool q 0)
  | Some (JString s) => negb (bool_decide (s = EmptyString))
  | Some (JArray _) => true
  | Some (JObject _) => true
  end.

(** [Array.prototype.some] with a callback that may throw. *)
Fixpoint some {A} (f : A -> result bool) (l : list A) : result bool :=
  match l with
  | [] => Ok false
  | a :: rest => await b <- f a ;; if b then Ok true else some f rest
  end.

(** The response schema sent with the decomposition request (the
    descriptions of the fields are for the model only and are left out). *)
Inductive Schema :=
| SString
| SNumber
| SArray (items : Schema)
| SObject (properties : list (string * Schema)) (required : list string).

Record Config := mkConfig { responseMimeType : string; responseSchema : Schema }.

(** The argument of [ai.models.generateContent]: the model, the two parts of
    [contents] (the inline image and the prompt) and the optional config. *)
Record Request := mkRequest {
  model : string;
  inlineMimeType : string;
  inlineImage : string;
  prompt : string;
  config : option Config
}.

(** The parts of a [GenerateContentResponse] that the clients read. *)
Record Blob := mkBlob { blobMimeType : string; blobData : string }.
Record Part := mkPart { inlineData : option Blob; partText : option string }.
Record Content := mkContent { parts : option (list Part) }.
Record Candidate := mkCandidate { content : option Content }.
Record GenerateContentResponse := mkResponse {
  candidates : option (list Candidate);
  responseText : option string
}.

(** The remote model and the two [JSON] builtins. *)
Class GenAI := {
  generateContent : Request -> result GenerateContentResponse;
  JSON_parse : string -> result Json;
  JSON_stringify : BoundingBox.t -> string
}.

(** ** The world the clients act on *)

(** The layer objects of the session (a reference to a layer is its index),
    what was written with [console.error], and the requests sent so far. *)
Record World := mkWorld {
  layerObjects : list Layer;
  console : list (string * JsError);
  sent : list Request
}.

Definition M (A : Type) : Type := World -> World * result A.

Definition ret {A} (a : A) : M A := fun w => (w, Ok a).
Definition throw {A} (e : JsError) : M A := fun w => (w, Err e).
Definition lift {A} (r : result A) : M A := fun w => (w, r).

Definition bindM {A B} (m : M A) (k : A -> M B) : M B :=
  fun w =>
    match m w with
    | (w', Ok a) => k a w'
    | (w', Err e) => (w', Err e)
    end.

Notation "'do' x <- m ;; k" := (bindM m (fun x => k))
  (at level 100, x pattern, m at next level, right associativity) : js_scope.

(** [try { body } catch (error) { handler }]. *)
Definition tryCatch {A} (body : M A) (handler : JsError -> M A) : M A :=
  fun w =>
    match body w with
    | (w', Ok a) => (w', Ok a)
    | (w', Err e) => handler e w'
    end.

Definition console_error (label : string) (e : JsError) : M unit :=
  fun w => (mkWorld (layerObjects w) (console w ++ [(label, e)]) (sent w), Ok tt).

(** [await ai.models.generateContent(request)]. *)
Definition callModel `{GenAI} (rq : Request) : M GenerateContentResponse :=
  fun w => (mkWorld (layerObjects w) (console w) (sent w ++ [rq]), generateContent rq).

(** Dereferencing a layer reference; a reference to nothing is [undefined],
    whose properties cannot be read. *)
Definition readLayer (layer : nat) : M Layer :=
  fun w =>
    match layerObjects w !! layer with
    | Some l => (w, Ok l)
    | None => (w, Err (TypeError "Cannot read properties of undefined"))
    end.

(** ** [services/geminiService.ts] *)

Definition layerSchema : Schema :=
  SArray
    (SObject
       [("name", SString);
        ("description", SString);
        ("type", SString);
        ("boundingBox",
         SObject [("x", SNumber); ("y", SNumber); ("width", SNumber); ("height", SNumber)]
                 ["x"; "y"; "width"; "height"])]
       ["name"; "description"; "type"; "boundingBox"]).

(** A word between double quotes. *)
Definition dq (s : string) : string :=
  String "034"%char (s +:+ String "034"%char EmptyString).

Definition analyzePrompt : string :=
  "You are an expert graphic designer specializing in Photoshop. Your task is to analyze the provided image and break it down into a logical set of layers as if you were preparing it for editing in a PSD file.

For each layer, you will:
1.  Provide a short, descriptive 'name'.
2.  Classify its 'type' as one of three categories: " +:+ dq "image" +:+ ", " +:+ dq "shape" +:+ ", or " +:+ dq "text" +:+ ".
3.  Provide a 'description' with specific details based on the layer type.
4.  Provide a 'boundingBox' with normalized coordinates (values between 0 and 1) for its position and size ('x', 'y', 'width', 'height').

LAYER DESCRIPTION REQUIREMENTS:
- For " +:+ dq "image" +:+ " layers (rasterized parts, photos): Describe the content (e.g., " +:+ dq "A blurry forest landscape." +:+ ", " +:+ dq "A red sports car, front view." +:+ ").
- For " +:+ dq "shape" +:+ " layers (vector-like elements, solid colors): Describe the shape and color (e.g., " +:+ dq "A solid blue circle." +:+ ", " +:+ dq "A red rectangle with rounded corners." +:+ ").
- For " +:+ dq "text" +:+ " layers: Your description MUST include the following, separated by a comma:
    1.  Text: The exact text content from the image.
    2.  Color Hex: Provide the hex code (e.g., " +:+ dq "#FFFFFF" +:+ "). If the text has a gradient, analyze the colors and provide the hex codes for the primary colors (e.g., " +:+ dq "Gradient from #FF5733 to #C70039" +:+ ").

Structure your entire response as a single JSON array of layer objects. Order the layers from bottom (background) to top (foreground).".

(** The callback of the validation,
    [item => !item.name || !item.description || !item.type || !item.boundingBox]. *)
Definition lacksField (item : Json) : result bool :=
  await n <- getProp item "name" ;;
  if negb (truthy n) then Ok true else
  await d <- getProp item "description" ;;
  if negb (truthy d) then Ok true else
  await t <- getProp item "type" ;;
  if negb (truthy t) then Ok true else
  await b <- getProp item "boundingBox" ;;
  Ok (negb (truthy b)).

(** [!Array.isArray(parsedJson) || parsedJson.some(...)]. *)
Definition invalidStructure (parsedJson : Json) : result bool :=
  match parsedJson with
  | JArray items => some lacksField items
  | _ => Ok true
  end.

(** [parsedJson as Layer[]]: the cast does nothing at run time, the array is
    returned as parsed. *)
Definition asLayers (parsedJson : Json) : list Json :=
  match parsedJson with
  | JArray items => items
  | _ => []
  end.

Definition analyzeImageForLayers `{GenAI} (base64Image mimeType : string) : M (list Json) :=
  tryCatch
    (do response <- callModel
         (mkRequest "gemini-flash-latest" mimeType base64Image analyzePrompt
            (Some (mkConfig "application/json" layerSchema))) ;;
     let jsonText := responseText response in
     if negb (truthyString jsonText)
     then throw (Error "API returned an empty response.")
     else
       do parsedJson <- lift (JSON_parse (default EmptyString jsonText)) ;;
       do invalid <- lift (invalidStructure parsedJson) ;;
       if invalid
       then throw (Error "Invalid JSON structure received from API.")
       else ret (asLayers parsedJson))
    (fun error =>
       do _ <- console_error "Error calling Gemini API:" error ;;
       throw (Error "Failed to communicate with the AI model.")).

Definition extractPrompt `{GenAI} (layer : Layer) : string :=
  "You are an image editing expert. Your task is to perform a precise cutout. From the provided main image, extract the object located within this bounding box: "
  +:+ JSON_stringify (boundingBox layer)
  +:+ ". The object is described as: '" +:+ description layer +:+ "'.
Your output MUST be ONLY the extracted object on a transparent background, cropped to its content. Do not include any other text or content in your response. Return a PNG image.".

(** [response.candidates[0].content.parts], each step of which throws a
    [TypeError] when it reads a property of [undefined]. *)
Definition firstCandidateParts (response : GenerateContentResponse) : result (list Part) :=
  match candidates response with
  | None => Err (TypeError "Cannot read properties of undefined (reading '0')")
  | Some cs =>
      match cs !! 0%nat with
      | None => Err (TypeError "Cannot read properties of undefined (reading 'content')")
      | Some c =>
          match content c with
          | None => Err (TypeError "Cannot read properties of undefined (reading 'parts')")
          | Some ct =>
              match parts ct with
              | None => Err (TypeError "undefined is not iterable")
              | Some ps => Ok ps
              end
          end
      end
  end.

(** The loop [for (const part of parts) if (part.inlineData) return
    part.inlineData.data], [None] when the loop runs to its end. *)
Fixpoint firstInlineData (ps : list Part) : option string :=
  match ps with
  | [] => None
  | part :: rest =>
      match inlineData part with
      | Some blob => Some (blobData blob)
      | None => firstInlineData rest
      end
  end.

Definition extractImageLayer `{GenAI} (base64Image mimeType : string) (layer : nat) : M string :=
  do layerObj <- readLayer layer ;;
  let prompt := extractPrompt layerObj in
  tryCatch
    (do response <- callModel
         (mkRequest "gemini-2.5-flash-image" mimeType base64Image prompt None) ;;
     do ps <- lift (firstCandidateParts response) ;;
     match firstInlineData ps with
     | Some d => ret d
     | None => throw (Error "No image data found in AI response for extraction.")
     end)
    (fun error =>
       do _ <- console_error "Error calling Gemini API for image extraction:" error ;;
       throw (Error "Failed to extract image layer with the AI model.")).

(** ** Specification vocabulary for the assembler *)

(** The first element of [psdLayers], built from the decoded original. *)
Definition originalLayer (base : ImageData.t) : AgPsd.Layer :=
  AgPsd.mkLayer "Original Image" (ImageData.data base) 0 0
    (ImageData.width base) (ImageData.height base) None.

(** The pixel that [getImageData] returns where the guide colour of a
    category was filled on the cleared canvas: the palette colour of
    [typeToRgba] after its passage through the premultiplied store, which
    costs the blue of [shape] and the red, green and blue of [text] one
    level each. *)
Definition guideColor (t : LayerType) : RGBA :=
  match t with
  | image => mkRGBA 74 222 128 100
  | shape => mkRGBA 250 204 20 100
  | text => mkRGBA 247 112 112 100
  end.

(** A full canvas that is transparent except for the layer's absolute
    rectangle, which holds the guide colour. *)
Definition guidePixels (width height : Z) (layer : Layer) : list RGBA :=
  let rc := rect layer width height in
  pixels width height (fun px py =>
    if covers (Rect.x rc) (Rect.y rc) (Rect.w rc) (Rect.h rc) px py
    then guideColor (type layer) else transparent).

Definition guideLayer (width height : Z) (layer : Layer) : AgPsd.Layer :=
  AgPsd.mkLayer ("[" +:+ toUpperCase (typeString (type layer)) +:+ "] " +:+ name layer)
    (guidePixels width height layer) 0 0 width height (Some (7 # 10)).

Definition cutoutLayer (width height : Z) (layer : Layer) (cutout : ImageData.t)
  : AgPsd.Layer :=
  let left := Math_round (BoundingBox.x (boundingBox layer) * inject_Z width) in
  let top := Math_round (BoundingBox.y (boundingBox layer) * inject_Z height) in
  AgPsd.mkLayer ("[Extracted] " +:+ name layer) (ImageData.data cutout)
    left top (left + ImageData.width cutout) (top + ImageData.height cutout) None.

(** What one input layer contributes to the document. *)
Inductive produces `{Browser} (width height : Z) (layer : Layer) : AgPsd.Layer -> Prop :=
| produces_cutout cutout :
    isExtractedImage layer = true ->
    loadImageDataFromBase64 (default EmptyString (extractedImage layer)) = Ok cutout ->
    produces width height layer (cutoutLayer width height layer cutout)
| produces_guide :
    isExtractedImage layer = false ->
    produces width height layer (guideLayer width height layer).

Definition isOk {A} (r : result A) : bool :=
  match r with Ok _ => true | Err _ => false end.

(** The cached extraction of the layer, if it is used at all, decodes. *)
Definition cutoutDecodes `{Browser} (layer : Layer) : bool :=
  negb (isExtractedImage layer)
  || isOk (loadImageDataFromBase64 (default EmptyString (extractedImage layer))).

(** No decode error occurs: the original image loads, the scratch canvas
    gets its context, and every cached extraction that is used decodes. *)
Definition noDecodeErrors `{Browser} (imageUrl : string) (layers : list Layer) : bool :=
  match loadImageData imageUrl with
  | Ok base =>
      getContext2d LayerCanvas (ImageData.width base) (ImageData.height base)
      && forallb cutoutDecodes layers
  | Err _ => false
  end.


(** ** A concrete browser for worked examples *)

Definition white : RGBA := mkRGBA 255 255 255 255.

(** Two sources decode to fully white canvases of 100 by 100 and 200 by 200
    pixels, one base64 payload decodes to a 40 by 40 cutout, and anything
    else is rejected by the decoder. *)
Definition demoBitmap (url : string) : result ImageData.t :=
  if bool_decide (url = "blob:canvas100")
  then Ok (ImageData.mk (pixels 100 100 (fun _ _ => white)) 100 100)
  else if bool_decide (url = "blob:canvas200")
  then Ok (ImageData.mk (pixels 200 200 (fun _ _ => white)) 200 200)
  else if bool_decide (url = "data:image/png;base64,Y3V0b3V0")
  then Ok (ImageData.mk (pixels 40 40 (fun _ _ => mkRGBA 10 20 30 255)) 40 40)
  else Err (mkJsError "InvalidStateError" "The source image could not be decoded.").

(** A stand-in for the encoder: the file signature followed by the canvas
    size and the number of layers. *)
Definition demoWritePsd (psd : AgPsd.Psd) : list Z :=
  [56; 66; 80; 83; AgPsd.width psd; AgPsd.height psd;
   Z.of_nat (length (AgPsd.children psd))].

Definition demoBrowser : Browser :=
  Build_Browser demoBitmap (fun _ _ _ => true) demoWritePsd.

Definition skyLayer : Layer :=
  mkLayer "Sky" "A pale blue sky." shape (BoundingBox.mk 0 0 1 (3 # 10)) None.

Definition cutoutCar : Layer :=
  mkLayer "Car" "A red sports car, front view." image
    (BoundingBox.mk (1 # 2) (1 # 2) (1 # 4) (1 # 4)) (Some "Y3V0b3V0").

(** A layer whose [x] is the double written [0.15]. *)
Definition offsetBox : Layer :=
  mkLayer "Badge" "A round badge." shape
    (BoundingBox.mk (roundToDouble (15 # 100)) 0 (1 # 2) (1 # 2)) None.

Definition brokenCar : Layer :=
  mkLayer "Car" "A red sports car, front view." image
    (BoundingBox.mk (1 # 2) (1 # 2) (1 # 4) (1 # 4)) (Some "bm90LWEtcG5n").

(** ** Specification vocabulary for the clients *)

(** The requests the two clients send. *)
Definition analyzeRequest (base64Image mimeType : string) : Request :=
  mkRequest "gemini-flash-latest" mimeType base64Image analyzePrompt
    (Some (mkConfig "application/json" layerSchema)).

Definition extractRequest `{GenAI} (base64Image mimeType : string) (layer : Layer) : Request :=
  mkRequest "gemini-2.5-flash-image" mimeType base64Image (extractPrompt layer) None.

(** An element of the parsed array has truthy [name], [description], [type]
    and [boundingBox]. *)
Definition hasRequiredFields (item : Json) : bool :=
  match item with
  | JObject members =>
      truthy (assoc "name" members) && truthy (assoc "description" members)
      && truthy (assoc "type" members) && truthy (assoc "boundingBox" members)
  | _ => false
  end.

(** The world after the request [rq] was sent and [cause] was logged under
    [label]. *)
Definition afterFailure (w : World) (rq : Request) (label : string) (cause : JsError) : World :=
  mkWorld (layerObjects w) (console w ++ [(label, cause)]) (sent w ++ [rq]).

Definition afterRequest (w : World) (rq : Request) : World :=
  mkWorld (layerObjects w) (console w) (sent w ++ [rq]).

(** The layer list a completed response stands for, in the words of the
    contract: its text is present and non-empty, it parses to an array, and
    every element of the array has the four required fields.  [None] when the
    response is not of that form. *)
Definition acceptedLayers `{GenAI} (response : GenerateContentResponse) : option (list Json) :=
  match responseText response with
  | Some txt =>
      if bool_decide (txt = EmptyString) then None
      else
        match JSON_parse txt with
        | Ok (JArray items) => if forallb hasRequiredFields items then Some items else None
        | _ => None
        end
  | None => None
  end.

(** The error that the decomposition client writes to the console for a
    completed response it does not accept: the client's own error for a
    missing or empty text, the parser's error for a text that does not parse,
    the client's other error for a value that is not an array or that has an
    element lacking a field, and a [TypeError] when the first element that
    lacks a field is [null], whose properties cannot be read. *)
Definition rejectionCause `{GenAI} (response : GenerateContentResponse) (cause : JsError)
  : Prop :=
  match responseText response with
  | None => cause = Error "API returned an empty response."
  | Some txt =>
      if bool_decide (txt = EmptyString)
      then cause = Error "API returned an empty response."
      else
        match JSON_parse txt with
        | Err e => cause = e
        | Ok (JArray items) =>
            match find (fun item => negb (hasRequiredFields item)) items with
            | Some JNull => errorClass cause = "TypeError"
            | _ => cause = Error "Invalid JSON structure received from API."
            end
        | Ok _ => cause = Error "Invalid JSON structure received from API."
        end
  end.

(** What the handlers of the two clients throw. *)
Definition analyzeFailure : result (list Json) :=
  Err (Error "Failed to communicate with the AI model.").

Definition extractFailure : result string :=
  Err (Error "Failed to extract image layer with the AI model.").

(** The layer record with another cache field. *)
Definition withCache (cache : option string) (l : Layer) : Layer :=
  mkLayer (name l) (description l) (type l) (boundingBox l) cache.

(** ** A concrete remote model for worked examples *)

(** [[{"name":"Sky","description":"A pale blue sky.","type":"banana","boundingBox":{}}]] *)
Definition looseText : string :=
  "[{" +:+ dq "name" +:+ ":" +:+ dq "Sky" +:+ "," +:+ dq "description" +:+ ":"
  +:+ dq "A pale blue sky." +:+ "," +:+ dq "type" +:+ ":" +:+ dq "banana" +:+ ","
  +:+ dq "boundingBox" +:+ ":{}}]".

Definition looseItem : Json :=
  JObject [("name", JString "Sky"); ("description", JString "A pale blue sky.");
           ("type", JString "banana"); ("boundingBox", JObject [])].

(** [[{"name":"Sky","description":"A pale blue sky.","type":"shape","boundingBox":{"x":0,"y":0,"width":1,"height":0.3}},{"name":"Car","description":"A red sports car, front view.","type":"image"}]]:
    the second element has no [boundingBox]. *)
Definition partialText : string :=
  "[{" +:+ dq "name" +:+ ":" +:+ dq "Sky" +:+ "," +:+ dq "description" +:+ ":"
  +:+ dq "A pale blue sky." +:+ "," +:+ dq "type" +:+ ":" +:+ dq "shape" +:+ ","
  +:+ dq "boundingBox" +:+ ":{" +:+ dq "x" +:+ ":0," +:+ dq "y" +:+ ":0,"
  +:+ dq "width" +:+ ":1," +:+ dq "height" +:+ ":0.3}},{"
  +:+ dq "name" +:+ ":" +:+ dq "Car" +:+ "," +:+ dq "description" +:+ ":"
  +:+ dq "A red sports car, front view." +:+ "," +:+ dq "type" +:+ ":" +:+ dq "image" +:+ "}]".

Definition partialItems : list Json :=
  [JObject [("name", JString "Sky"); ("description", JString "A pale blue sky.");
            ("type", JString "shape");
            ("boundingBox",
             JObject [("x", JNumber 0); ("y", JNumber 0); ("width", JNumber 1);
                      ("height", JNumber (3 # 10))])];
   JObject [("name", JString "Car"); ("description", JString "A red sports car, front view.");
            ("type", JString "image")]].

Definition demoParse (txt : string) : result Json :=
  if bool_decide (txt = looseText) then Ok (JArray [looseItem])
  else if bool_decide (txt = partialText) then Ok (JArray partialItems)
  else Err (mkJsError "SyntaxError" "Unexpected token in JSON").

Definition demoStringify (bb : BoundingBox.t) : string :=
  if Qeq_bool (BoundingBox.x bb) (1 # 2) && Qeq_bool (BoundingBox.y bb) (1 # 2)
     && Qeq_bool (BoundingBox.width bb) (1 # 4) && Qeq_bool (BoundingBox.height bb) (1 # 4)
  then "{" +:+ dq "x" +:+ ":0.5," +:+ dq "y" +:+ ":0.5," +:+ dq "width" +:+ ":0.25,"
       +:+ dq "height" +:+ ":0.25}"
  else "{}".

Definition cutoutResponse : GenerateContentResponse :=
  mkResponse
    (Some [mkCandidate (Some (mkContent (Some
       [mkPart None (Some "Here is the cutout.");
        mkPart (Some (mkBlob "image/png" "Y3V0b3V0")) None;
        mkPart (Some (mkBlob "image/png" "c2Vjb25k")) None])))])
    None.

Definition textOnlyResponse : GenerateContentResponse :=
  mkResponse
    (Some [mkCandidate (Some (mkContent (Some
       [mkPart None (Some "I could not isolate the object.")])))])
    (Some "I could not isolate the object.").

(** The service is unreachable for the image [b2ZmbGluZQ==].  Otherwise the
    decomposition model answers [looseText] for the image [bG9vc2U=] and
    [partialText] for any other, and the image model returns a cutout for
    the image [Y2Fy] and only text for any other. *)
Definition demoGenerateContent (rq : Request) : result GenerateContentResponse :=
  if bool_decide (inlineImage rq = "b2ZmbGluZQ==")
  then Err (mkJsError "ApiError" "fetch failed")
  else if bool_decide (model rq = "gemini-flash-latest")
  then (if bool_decide (inlineImage rq = "bG9vc2U=")
        then Ok (mkResponse None (Some looseText))
        else Ok (mkResponse None (Some partialText)))
  else (if bool_decide (inlineImage rq = "Y2Fy")
        then Ok cutoutResponse
        else Ok textOnlyResponse).

Definition demoGenAI : GenAI :=
  Build_GenAI demoGenerateContent demoParse demoStringify.

(** A remote model whose image answer carries inline data that is empty. *)
Definition blankGenAI : GenAI :=
  Build_GenAI
    (fun _ =>
       Ok (mkResponse
             (Some [mkCandidate (Some (mkContent (Some
                [mkPart (Some (mkBlob "image/png" EmptyString)) None])))])
             None))
    demoParse demoStringify.

(** A session with two layers, the second of which already has a cached
    cutout, and nothing logged or sent yet. *)
Definition demoWorld : World :=
  mkWorld [skyLayer; cutoutCar] [] [].

(** * Further definitions: the session, its handlers and its views *)

(** A layer one thousandth of the canvas high. *)
Definition hairline : Layer :=
  mkLayer "Rule" "A thin grey line." shape
    (BoundingBox.mk (1 # 10) (1 # 2) (8 # 10) (1 # 1000)) None.

(** A remote model that answers every request with no candidate at all. *)
Definition silentGenAI : GenAI :=
  Build_GenAI (fun _ => Ok (mkResponse (Some []) None)) demoParse demoStringify.

(** ** String operations of the views and handlers *)

(** [s.split(sep)] for a separator of one character. *)
Fixpoint split (sep : ascii) (s : string) : list string :=
  match s with
  | EmptyString => [EmptyString]
  | String c rest =>
      if Ascii.eqb c sep then EmptyString :: split sep rest
      else
        match split sep rest with
        | [] => [String c EmptyString]
        | part :: parts => String c part :: parts
        end
  end.

(** [s.indexOf(c)] and [s.lastIndexOf(c)] for a string [c] of one character:
    the position of the first and of the last occurrence, [-1] when there is
    none. *)
Fixpoint indexOf (c : ascii) (s : string) : Z :=
  match s with
  | EmptyString => -1
  | String a rest =>
      if Ascii.eqb a c then 0
      else let i := indexOf c rest in if i <? 0 then -1 else i + 1
  end.

Fixpoint lastIndexOf (c : ascii) (s : string) : Z :=
  match s with
  | EmptyString => -1
  | String a rest =>
      let i := lastIndexOf c rest in
      if 0 <=? i then i + 1 else if Ascii.eqb a c then 0 else -1
  end.

(** [s.includes(c)]. *)
Definition includes (c : ascii) (s : string) : bool := 0 <=? indexOf c s.

(** [s.substring(start, end)]: both indices are clamped to the string and
    swapped when out of order. *)
Definition substring (s : string) (start stop : Z) : string :=
  let len := Z.of_nat (String.length s) in
  let a := Z.max 0 (Z.min start len) in
  let b := Z.max 0 (Z.min stop len) in
  String.substring (Z.to_nat (Z.min a b)) (Z.to_nat (Z.max a b - Z.min a b)) s.

(** [s.substring(start)]. *)
Definition substringFrom (s : string) (start : Z) : string :=
  substring s start (Z.of_nat (String.length s)).

(** White space and line terminators among the code units below 256. *)
Definition isWhiteSpace (c : ascii) : bool :=
  let n := nat_of_ascii c in
  (n =? 9)%nat || (n =? 10)%nat || (n =? 11)%nat || (n =? 12)%nat
  || (n =? 13)%nat || (n =? 32)%nat || (n =? 160)%nat.

Fixpoint trimStart (s : string) : string :=
  match s with
  | EmptyString => EmptyString
  | String c rest => if isWhiteSpace c then trimStart rest else s
  end.

Fixpoint trimEnd (s : string) : string :=
  match s with
  | EmptyString => EmptyString
  | String c rest =>
      match trimEnd rest with
      | EmptyString => if isWhiteSpace c then EmptyString else String c EmptyString
      | kept => String c kept
      end
  end.

(** [s.trim()]. *)
Definition trim (s : string) : string := trimEnd (trimStart s).

(** ** [components/ResultDisplay.tsx] *)

(** What [LayerDescription] renders: the description as a paragraph, or a
    table of labelled values. *)
Inductive DescriptionView :=
| Paragraph (description : string)
| PropertyTable (rows : list (string * string)).

(** The callback of [map]: [null] for a part without a colon. *)
Definition propertyOf (part : string) : option (string * string) :=
  let splitIndex := indexOf ":" part in
  if splitIndex =? -1 then None
  else Some (trim (substring part 0 splitIndex), trim (substringFrom part (splitIndex + 1))).

(** [description.split(',').map(...).filter(item => item !== null)]. *)
Definition properties (description : string) : list (string * string) :=
  omap propertyOf (split "," description).

(** None of the string operations between [try] and [catch] throws, so the
    handler of the component is not reached. *)
Definition LayerDescription (layer : Layer) : DescriptionView :=
  if negb (LayerType_eqb (type layer) text) || negb (includes ":" (description layer))
  then Paragraph (description layer)
  else
    let props := properties (description layer) in
    if (length props =? 0)%nat then Paragraph (description layer)
    else PropertyTable props.

(** One item of the layers panel: its React key (the index of the layer in
    [layers]), the layer, whether its button shows the extraction as running,
    and whether it has an extract button at all. *)
Record LayerRow := mkLayerRow {
  originalIndex : nat;
  rowLayer : Layer;
  isExtracting : bool;
  hasExtractButton : bool
}.

(** [[...layers].reverse().map((layer, index) => ...)].  The index
    [layers.length - 1 - index] is never negative, [index] being below the
    length. *)
Definition layerRows (layers : list Layer) (extractingLayerIndex : option nat)
  : list LayerRow :=
  imap (fun index layer =>
          let originalIndex := (length layers - 1 - index)%nat in
          mkLayerRow originalIndex layer
            (bool_decide (extractingLayerIndex = Some originalIndex))
            (LayerType_eqb (type layer) image))
       (reverse layers).

(** ** [App.tsx] *)

(** A [File] as the handlers see it: its name and its MIME type.  Its
    content is read through [FileReader]; [fileId] tells files of one name
    and type apart. *)
Record File := mkFile { fileName : string; fileType : string; fileId : nat }.

(** The result of [FileReader.readAsDataURL]: a [data:] URL with a media
    type and the content in base64. *)
Record DataUrl := mkDataUrl { mediaType : string; base64Data : string }.

Definition renderDataUrl (u : DataUrl) : string :=
  "data:" +:+ mediaType u +:+ ";base64," +:+ base64Data u.

(** Reading a file either fires [onload] with the data URL or [onerror]. *)
Class FileApi := {
  readAsDataURL : File -> result DataUrl
}.

(** [resolve(result.split(',')[1])].  The rendered URL always holds a comma,
    so the element of index 1 exists (see [split_renderDataUrl]); the default
    is never used. *)
Definition fileToBase64 `{FileApi} (file : File) : result string :=
  await u <- readAsDataURL file ;;
  Ok (default EmptyString (split "," (renderDataUrl u) !! 1%nat)).

Module App.
(** The values of the [useState] hooks of [App]. *)
Record State := mkState {
  imageFile : option File;
  imageUrl : option string;
  layers : option (list Layer);
  isLoading : bool;
  statusMessage : string;
  error : option string;
  extractingLayerIndex : option nat;
  modalImage : option string;
  isExportingPsd : bool
}.

Definition setLayers (v : option (list Layer)) (s : State) : State :=
  mkState (imageFile s) (imageUrl s) v (isLoading s) (statusMessage s) (error s)
    (extractingLayerIndex s) (modalImage s) (isExportingPsd s).

Definition setError (v : option string) (s : State) : State :=
  mkState (imageFile s) (imageUrl s) (layers s) (isLoading s) (statusMessage s) v
    (extractingLayerIndex s) (modalImage s) (isExportingPsd s).

Definition setExtractingLayerIndex (v : option nat) (s : State) : State :=
  mkState (imageFile s) (imageUrl s) (layers s) (isLoading s) (statusMessage s) (error s)
    v (modalImage s) (isExportingPsd s).

Definition setModalImage (v : option string) (s : State) : State :=
  mkState (imageFile s) (imageUrl s) (layers s) (isLoading s) (statusMessage s) (error s)
    (extractingLayerIndex s) v (isExportingPsd s).

Definition setIsExportingPsd (v : bool) (s : State) : State :=
  mkState (imageFile s) (imageUrl s) (layers s) (isLoading s) (statusMessage s) (error s)
    (extractingLayerIndex s) (modalImage s) v.
End App.

(** The session a handler runs in: the state of the component, what was
    logged and sent, and the files handed to the user for download (name and
    bytes).  The layer objects of the world are the elements of the state's
    array, a reference to a layer being its index. *)
Record Session := mkSession {
  app : App.State;
  console_ : list (string * JsError);
  sent_ : list Request;
  downloads : list (string * list Z)
}.

Definition withApp (f : App.State -> App.State) (s : Session) : Session :=
  mkSession (f (app s)) (console_ s) (sent_ s) (downloads s).

(** [console.error(err)]. *)
Definition logError (err : JsError) (s : Session) : Session :=
  mkSession (app s) (console_ s ++ [(EmptyString, err)]) (sent_ s) (downloads s).

(** The handler [handleExtractLayer], one invocation run to its end with no
    other handler in between, so that the [layers] and [imageFile] it closed
    over are those of the current state.  The result is the settled promise:
    the handler rejects only when [layerIndex] is not an index of [layers]. *)
Definition handleExtractLayer `{GenAI} `{FileApi} (layerIndex : nat) (s : Session)
  : Session * result unit :=
  match App.imageFile (app s), App.layers (app s) with
  | Some imageFile, Some layers =>
      match layers !! layerIndex with
      | None =>
          (s, Err (TypeError "Cannot read properties of undefined (reading 'extractedImage')"))
      | Some targetLayer =>
          if truthyString (extractedImage targetLayer) then
            (withApp (App.setModalImage
                        (Some ("data:image/png;base64,"
                               +:+ default EmptyString (extractedImage targetLayer)))) s,
             Ok tt)
          else
            let s1 := withApp (fun a => App.setError None
                                 (App.setExtractingLayerIndex (Some layerIndex) a)) s in
            let s2 :=
              match fileToBase64 imageFile with
              | Err err =>
                  withApp (App.setError
                             (Some "Failed to extract the layer. The AI may not have been able to isolate it."))
                    (logError err s1)
              | Ok base64Image =>
                  let '(w, outcome) :=
                    extractImageLayer base64Image (fileType imageFile) layerIndex
                      (mkWorld layers (console_ s1) (sent_ s1)) in
                  let s1' := mkSession (app s1) (console w) (sent w) (downloads s1) in
                  match outcome with
                  | Ok extractedBase64 =>
                      let updatedLayers :=
                        <[layerIndex := withCache (Some extractedBase64) targetLayer]> layers in
                      withApp (fun a =>
                                 App.setModalImage
                                   (Some ("data:image/png;base64," +:+ extractedBase64))
                                   (App.setLayers (Some updatedLayers) a)) s1'
                  | Err err =>
                      withApp (App.setError
                                 (Some "Failed to extract the layer. The AI may not have been able to isolate it."))
                        (logError err s1')
                  end
              end in
            (withApp (App.setExtractingLayerIndex None) s2, Ok tt)
      end
  | _, _ => (s, Ok tt)
  end.

(** [imageFile.name.substring(0, imageFile.name.lastIndexOf('.')) || imageFile.name]. *)
Definition originalFileName (file : File) : string :=
  let stem := substring (fileName file) 0 (lastIndexOf "." (fileName file)) in
  if bool_decide (stem = EmptyString) then fileName file else stem.

(** The handler [handleExportPsd], run to its end.  Creating the blob and
    clicking the link is recorded as one download. *)
Definition handleExportPsd `{Browser} (s : Session) : Session :=
  match App.imageUrl (app s), App.layers (app s), App.imageFile (app s) with
  | Some imageUrl, Some layers, Some imageFile =>
      if negb (truthyString (Some imageUrl)) then s
      else
        let s1 := withApp (fun a => App.setError None (App.setIsExportingPsd true a)) s in
        let s2 :=
          match exportToPsd imageUrl layers with
          | Ok psdBytes =>
              mkSession (app s1) (console_ s1) (sent_ s1)
                (downloads s1 ++ [(originalFileName imageFile +:+ "-layers.psd", psdBytes)])
          | Err err =>
              withApp (App.setError (Some "Failed to export PSD file.")) (logError err s1)
          end in
        withApp (App.setIsExportingPsd false) s2
  | _, _, _ => s
  end.

(** ** Concrete files and sessions for worked examples *)

Definition posterFile : File := mkFile "poster.final.png" "image/png" 0.

(** Every file reads as the image [Y2Fy], except the file of id 1, which
    cannot be read. *)
Definition demoFileApi : FileApi :=
  Build_FileApi (fun file =>
    if (fileId file =? 1)%nat
    then Err (mkJsError "NotReadableError" "The file could not be read.")
    else Ok (mkDataUrl (fileType file) "Y2Fy")).

Definition plainCar : Layer :=
  mkLayer "Car" "A red sports car, front view." image
    (BoundingBox.mk (1 # 2) (1 # 2) (1 # 4) (1 # 4)) None.

Definition demoState (file : File) (layers : list Layer) : App.State :=
  App.mkState (Some file) (Some "blob:canvas200") (Some layers) false EmptyString None
    None None false.

Definition demoSession (file : File) (layers : list Layer) : Session :=
  mkSession (demoState file layers) [] [] [].
(** ** Properties of the canvas model *)

Lemma pixels_ext (w h : Z) (f g : Z -> Z -> RGBA) :
  (forall px py, 0 <= px < w -> 0 <= py < h -> f px py = g px py) ->
  pixels w h f = pixels w h g.
Proof.
  intros Hfg. unfold pixels. f_equal.
  apply map_ext_in. intros py Hpy.
  apply map_ext_in. intros px Hpx.
  apply list_elem_of_In, elem_of_seqZ in Hpy.
  apply list_elem_of_In, elem_of_seqZ in Hpx.
  apply Hfg; lia.
Qed.

Lemma covers_canvas (w h px py : Z) :
  0 <= px < w -> 0 <= py < h -> covers 0 0 w h px py = true.
Proof.
  intros Hx Hy. unfold covers.
  rewrite !andb_true_iff, !Z.leb_le, !Z.ltb_lt. lia.
Qed.

Lemma sourceOver_transparent (t : LayerType) :
  (let '(r, g, b, a) := typeToRgba t in
   readBack (sourceOver (rgba r g b (inject_Z a / 255)) transparent)) = guideColor t.
Proof. destruct t; vm_compute; reflexivity. Qed.

(** Clearing the whole canvas and filling one rectangle leaves exactly the
    guide, whatever was drawn before. *)
Lemma guide_imageData (c : Context2D) (width height : Z) (layer : Layer) :
  canvasWidth c = width -> canvasHeight c = height ->
  (let cl := clearRect c 0 0 width height in
   let '(r, g, b, a) := typeToRgba (type layer) in
   let cf := set_fillStyle cl (rgba r g b (inject_Z a / 255)) in
   let rc := rect layer width height in
   ImageData.data
     (getImageData (fillRect cf (Rect.x rc) (Rect.y rc) (Rect.w rc) (Rect.h rc))
        0 0 width height))
  = guidePixels width height layer.
Proof.
  intros Hw Hh. pose proof (sourceOver_transparent (type layer)) as Hso.
  destruct (typeToRgba (type layer)) as [[[r g] b] a] eqn:Hrgba.
  cbn [getImageData ImageData.data fillRect set_fillStyle clearRect
       canvasWidth canvasHeight fillStyle pixelAt].
  unfold guidePixels. apply pixels_ext. intros px py Hx Hy.
  rewrite Hw, Hh, !Z.add_0_l, (covers_canvas width height px py Hx Hy).
  destruct (covers _ _ _ _ px py); [exact Hso | reflexivity].
Qed.

(** ** The loop of the assembler *)

Section Assembler.
Context `{Browser}.
Variables width height : Z.

Lemma exportLayer_cutout (st : LoopState) (layer : Layer) (cutout : ImageData.t) :
  isExtractedImage layer = true ->
  loadImageDataFromBase64 (default EmptyString (extractedImage layer)) = Ok cutout ->
  exportLayer width height st layer
  = Ok (mkLoopState (ctx st) (psdLayers st ++ [cutoutLayer width height layer cutout])).
Proof.
  intros Hex Hload. unfold exportLayer. rewrite Hex, Hload. reflexivity.
Qed.

Lemma exportLayer_cutout_fails (st : LoopState) (layer : Layer) (e : JsError) :
  isExtractedImage layer = true ->
  loadImageDataFromBase64 (default EmptyString (extractedImage layer)) = Err e ->
  exportLayer width height st layer = Err e.
Proof.
  intros Hex Hload. unfold exportLayer. rewrite Hex, Hload. reflexivity.
Qed.

Lemma exportLayer_guide (st : LoopState) (layer : Layer) :
  isExtractedImage layer = false ->
  canvasWidth (ctx st) = width -> canvasHeight (ctx st) = height ->
  exists c,
    exportLayer width height st layer
    = Ok (mkLoopState c (psdLayers st ++ [guideLayer width height layer]))
    /\ canvasWidth c = width /\ canvasHeight c = height.
Proof.
  intros Hex Hw Hh. unfold exportLayer. rewrite Hex.
  pose proof (guide_imageData (ctx st) width height layer Hw Hh) as Hdata.
  destruct (typeToRgba (type layer)) as [[[r g] b] a].
  cbv zeta in Hdata. eexists. split; [| split].
  - unfold push, guideLayer. cbn [ctx psdLayers]. rewrite Hdata. reflexivity.
  - exact Hw.
  - exact Hh.
Qed.

(** When every cached extraction that is used decodes, the loop runs to its
    end and appends one document layer per input layer, in order. *)
Lemma forOf_exportLayer (layers : list Layer) :
  forall st,
    canvasWidth (ctx st) = width -> canvasHeight (ctx st) = height ->
    forallb cutoutDecodes layers = true ->
    exists st' outs,
      forOf (exportLayer width height) layers st = Ok st'
      /\ psdLayers st' = psdLayers st ++ outs
      /\ Forall2 (produces width height) layers outs.
Proof.
  induction layers as [| layer rest IH]; intros st Hw Hh Hdec.
  - exists st, []. cbn. rewrite app_nil_r. auto.
  - cbn in Hdec. apply andb_true_iff in Hdec as [Hl Hrest].
    destruct (isExtractedImage layer) eqn:Hex.
    + unfold cutoutDecodes in Hl. rewrite Hex in Hl. cbn in Hl.
      destruct (loadImageDataFromBase64 (default EmptyString (extractedImage layer)))
        as [cutout | e] eqn:Hload; [| discriminate].
      destruct (IH (mkLoopState (ctx st)
                      (psdLayers st ++ [cutoutLayer width height layer cutout]))
                  Hw Hh Hrest) as (st' & outs & Hrun & Hps & Hall).
      exists st', (cutoutLayer width height layer cutout :: outs).
      cbn [forOf]. rewrite (exportLayer_cutout st layer cutout Hex Hload).
      cbn [bind]. rewrite Hrun. cbn [psdLayers] in Hps.
      rewrite Hps, <- app_assoc. split; [reflexivity | split; [reflexivity |]].
      constructor; [| exact Hall]. now apply produces_cutout.
    + destruct (exportLayer_guide st layer Hex Hw Hh) as (c & Hstep & Hcw & Hch).
      destruct (IH (mkLoopState c (psdLayers st ++ [guideLayer width height layer]))
                  Hcw Hch Hrest) as (st' & outs & Hrun & Hps & Hall).
      exists st', (guideLayer width height layer :: outs).
      cbn [forOf]. rewrite Hstep. cbn [bind]. rewrite Hrun. cbn [psdLayers] in Hps.
      rewrite Hps, <- app_assoc. split; [reflexivity | split; [reflexivity |]].
      constructor; [| exact Hall]. now apply produces_guide.
Qed.
End Assembler.

Lemma forOf_app {A S} (body : S -> A -> result S) (xs ys : list A) (s : S) :
  forOf body (xs ++ ys) s = bind (forOf body xs s) (forOf body ys).
Proof.
  revert s. induction xs as [| x xs IH]; intros s; cbn; [reflexivity |].
  destruct (body s x); cbn; [apply IH | reflexivity].
Qed.

Lemma lookup_reverse_cons {A} (o : A) (outs : list A) (i : nat) :
  (i < length outs)%nat ->
  reverse (o :: outs) !! (length outs - S i)%nat = outs !! i.
Proof.
  intros Hi. rewrite reverse_lookup by (cbn; lia). cbn [length].
  replace (S (length outs) - S (length outs - S i))%nat with (S i) by lia.
  reflexivity.
Qed.

Lemma lookup_reverse_cons_last {A} (o : A) (outs : list A) :
  reverse (o :: outs) !! length outs = Some o.
Proof.
  rewrite reverse_lookup by (cbn; lia). cbn [length].
  replace (S (length outs) - S (length outs))%nat with 0%nat by lia.
  reflexivity.
Qed.

(** ** The assembled document *)

Section Document.
Context `{Browser}.

(** Without decode errors the assembly succeeds, and the document holds the
    reversed list of the original layer followed by one layer per input. *)
Lemma exportToPsd_document_ok (imageUrl : string) (layers : list Layer) :
  noDecodeErrors imageUrl layers = true ->
  exists base outs,
    loadImageData imageUrl = Ok base
    /\ Forall2 (produces (ImageData.width base) (ImageData.height base)) layers outs
    /\ exportToPsd_document imageUrl layers
       = Ok (AgPsd.mkPsd (ImageData.width base) (ImageData.height base)
               (reverse (originalLayer base :: outs))).
Proof.
  unfold noDecodeErrors, exportToPsd_document.
  destruct (loadImageData imageUrl) as [base | e]; [| discriminate].
  intros [Hctx Hdec]%andb_true_iff.
  destruct (forOf_exportLayer (ImageData.width base) (ImageData.height base) layers
              (mkLoopState (OffscreenCanvas (ImageData.width base) (ImageData.height base))
                 [originalLayer base])
              eq_refl eq_refl Hdec) as (st' & outs & Hrun & Hps & Hall).
  exists base, outs. split; [reflexivity | split; [exact Hall |]].
  cbn [bind]. rewrite Hctx. cbn [negb].
  fold (originalLayer base). rewrite Hrun. cbn [bind]. rewrite Hps. reflexivity.
Qed.

Lemma exportToPsd_of_document (imageUrl : string) (layers : list Layer) (doc : AgPsd.Psd) :
  exportToPsd_document imageUrl layers = Ok doc ->
  exportToPsd imageUrl layers = Ok (writePsd doc).
Proof. intros Hdoc. unfold exportToPsd. rewrite Hdoc. reflexivity. Qed.
End Document.

(** ** Layer order and count *)

(** C1.  When no decode error occurs, the list handed to the encoder is the
    reverse of: the original-image layer, then one document layer per input
    layer in the order of the input array.  So the document has one layer more
    than the input, the original image comes last in the file and the layer
    of the last (foreground-most) input comes first.  The statement needs no
    assumption that the input is non-empty. *)
Theorem exportToPsd_layers_reversed `{Browser} (imageUrl : string) (layers : list Layer) :
  noDecodeErrors imageUrl layers = true ->
  exists base outs,
    let children := reverse (originalLayer base :: outs) in
    let doc := AgPsd.mkPsd (ImageData.width base) (ImageData.height base) children in
    loadImageData imageUrl = Ok base
    /\ Forall2 (produces (ImageData.width base) (ImageData.height base)) layers outs
    /\ exportToPsd_document imageUrl layers = Ok doc
    /\ exportToPsd imageUrl layers = Ok (writePsd doc)
    /\ length children = (1 + length layers)%nat
    /\ last children = Some (originalLayer base)
    /\ (forall top, last layers = Some top ->
        exists o, head children = Some o
                  /\ produces (ImageData.width base) (ImageData.height base) top o).
Proof.
  intros Hdec.
  destruct (exportToPsd_document_ok imageUrl layers Hdec) as (base & outs & Hbase & Hall & Hdoc).
  exists base, outs. cbv zeta.
  pose proof (Forall2_length _ _ _ Hall) as Hlen.
  split; [exact Hbase |]. split; [exact Hall |]. split; [exact Hdoc |].
  split; [exact (exportToPsd_of_document _ _ _ Hdoc) |].
  split; [rewrite length_reverse; cbn; lia |].
  split; [rewrite last_reverse; reflexivity |].
  intros top Htop. rewrite last_lookup in Htop.
  destruct (Forall2_lookup_l _ _ _ _ _ Hall Htop) as (o & Ho & Hprod).
  exists o. split; [| exact Hprod].
  rewrite head_lookup.
  assert (Hi : (Nat.pred (length layers) < length outs)%nat).
  { apply lookup_lt_Some in Ho. exact Ho. }
  rewrite <- Ho, <- (lookup_reverse_cons (originalLayer base) outs _ Hi).
  f_equal. lia.
Qed.

Lemma exportToPsd_layers_reversed_witness :
  noDecodeErrors (H := demoBrowser) "blob:canvas100" [skyLayer; cutoutCar] = true
  /\ exists doc,
       exportToPsd_document (H := demoBrowser) "blob:canvas100" [skyLayer; cutoutCar] = Ok doc
       /\ length (AgPsd.children doc) = 3%nat.
Proof.
  split; [vm_compute; reflexivity |].
  destruct (exportToPsd_layers_reversed (H := demoBrowser) "blob:canvas100"
              [skyLayer; cutoutCar]) as (base & outs & Hw).
  - vm_compute; reflexivity.
  - cbv zeta in Hw. destruct Hw as (_ & _ & Hdoc & _ & Hlen & _).
    eexists. split; [exact Hdoc | exact Hlen].
Defined.

(** The document layer of the [i]-th input layer, counted from the front of
    the file. *)
Lemma exportToPsd_document_lookup `{Browser} (imageUrl : string) (layers : list Layer)
      (i : nat) (layer : Layer) :
  noDecodeErrors imageUrl layers = true ->
  layers !! i = Some layer ->
  exists base doc o,
    loadImageData imageUrl = Ok base
    /\ exportToPsd_document imageUrl layers = Ok doc
    /\ AgPsd.width doc = ImageData.width base
    /\ AgPsd.height doc = ImageData.height base
    /\ AgPsd.children doc !! (length layers - S i)%nat = Some o
    /\ produces (ImageData.width base) (ImageData.height base) layer o.
Proof.
  intros Hdec Hi.
  destruct (exportToPsd_document_ok imageUrl layers Hdec) as (base & outs & Hbase & Hall & Hdoc).
  destruct (Forall2_lookup_l _ _ _ _ _ Hall Hi) as (o & Ho & Hprod).
  exists base, (AgPsd.mkPsd (ImageData.width base) (ImageData.height base)
                  (reverse (originalLayer base :: outs))), o.
  repeat (split; [first [exact Hbase | exact Hdoc | reflexivity] |]).
  split; [| exact Hprod]. cbn [AgPsd.children].
  rewrite (Forall2_length _ _ _ Hall), <- Ho.
  apply lookup_reverse_cons. now apply lookup_lt_Some in Ho.
Qed.

(** ** Guide layers *)





(** ** Extracted cutouts *)



(** ** The empty layer array *)

(** C10.  For an empty layer array the assembly succeeds as soon as the
    original image decodes and the scratch canvas gets its context; the
    document then holds exactly one layer, the original image at (0,0)
    spanning the canvas, with no opacity set, that is, fully opaque. *)
Theorem exportToPsd_empty `{Browser} (imageUrl : string) (base : ImageData.t) :
  loadImageData imageUrl = Ok base ->
  getContext2d LayerCanvas (ImageData.width base) (ImageData.height base) = true ->
  let original :=
    AgPsd.mkLayer "Original Image" (ImageData.data base) 0 0
      (ImageData.width base) (ImageData.height base) None in
  let doc := AgPsd.mkPsd (ImageData.width base) (ImageData.height base) [original] in
  exportToPsd_document imageUrl [] = Ok doc
  /\ exportToPsd imageUrl [] = Ok (writePsd doc)
  /\ length (AgPsd.children doc) = (1 + length (@nil Layer))%nat
  /\ (AgPsd.effectiveOpacity original == 1)%Q.
Proof.
  intros Hbase Hctx original doc.
  assert (Hdoc : exportToPsd_document imageUrl [] = Ok doc).
  { unfold exportToPsd_document. rewrite Hbase. cbn [bind]. rewrite Hctx. reflexivity. }
  split; [exact Hdoc |]. split; [exact (exportToPsd_of_document _ _ _ Hdoc) |].
  split; reflexivity.
Qed.

Lemma exportToPsd_empty_witness :
  exists doc,
    exportToPsd_document (H := demoBrowser) "blob:canvas100" [] = Ok doc
    /\ exportToPsd (H := demoBrowser) "blob:canvas100" [] = Ok [56; 66; 80; 83; 100; 100; 1]
    /\ length (AgPsd.children doc) = 1%nat.
Proof.
  destruct (exportToPsd_empty (H := demoBrowser) "blob:canvas100"
              (ImageData.mk (pixels 100 100 (fun _ _ => white)) 100 100))
    as (Hdoc & Hbytes & Hlen & _); [reflexivity | reflexivity |].
  eexists. split; [exact Hdoc |]. split; [exact Hbytes | exact Hlen].
Defined.

(** ** A cached extraction that does not decode *)

(** C5, as the code has it.  The decoding of a cached extraction is awaited
    inside the loop with no handler around it: when the first [image] layer
    whose cached extraction fails to decode is reached, the whole assembly
    fails with that decode error; no document is produced, neither for the
    layers before it nor for those after it. *)
Theorem exportToPsd_cutout_decode_failure `{Browser} (imageUrl : string)
        (before after : list Layer) (layer : Layer) (e : JsError) :
  noDecodeErrors imageUrl before = true ->
  isExtractedImage layer = true ->
  loadImageDataFromBase64 (default EmptyString (extractedImage layer)) = Err e ->
  exportToPsd_document imageUrl (before ++ layer :: after) = Err e
  /\ exportToPsd imageUrl (before ++ layer :: after) = Err e.
Proof.
  intros Hdec Hex Hload.
  assert (Hdoc : exportToPsd_document imageUrl (before ++ layer :: after) = Err e).
  { unfold noDecodeErrors in Hdec. unfold exportToPsd_document.
    destruct (loadImageData imageUrl) as [base | e0]; [| discriminate].
    apply andb_true_iff in Hdec as [Hctx Hbefore].
    cbn [bind]. rewrite Hctx. cbn [negb]. rewrite forOf_app.
    destruct (forOf_exportLayer (ImageData.width base) (ImageData.height base) before
                (mkLoopState (OffscreenCanvas (ImageData.width base) (ImageData.height base))
                   [originalLayer base])
                eq_refl eq_refl Hbefore) as (st' & outs & Hrun & _).
    fold (originalLayer base). rewrite Hrun. cbn [bind forOf].
    rewrite (exportLayer_cutout_fails _ _ st' layer e Hex Hload). reflexivity. }
  split; [exact Hdoc |]. unfold exportToPsd. rewrite Hdoc. reflexivity.
Qed.

Lemma exportToPsd_cutout_decode_failure_witness :
  noDecodeErrors (H := demoBrowser) "blob:canvas100" [skyLayer] = true
  /\ isExtractedImage brokenCar = true
  /\ exportToPsd (H := demoBrowser) "blob:canvas100" ([skyLayer] ++ brokenCar :: [skyLayer])
     = Err (mkJsError "InvalidStateError" "The source image could not be decoded.").
Proof.
  split; [vm_compute; reflexivity |]. split; [reflexivity |].
  apply (exportToPsd_cutout_decode_failure (H := demoBrowser) "blob:canvas100"
           [skyLayer] [skyLayer] brokenCar);
    [vm_compute; reflexivity | reflexivity | reflexivity].
Defined.

(** C5, as the claim has it, fails: the original image decodes, the cached
    extraction of the first layer does not, and instead of a document with a
    guide rectangle for that layer and the layer after it, the assembly ends
    with the decode error. *)
Lemma exportToPsd_no_guide_fallback :
  isOk (loadImageData (H := demoBrowser) "blob:canvas100") = true
  /\ isOk (loadImageDataFromBase64 (H := demoBrowser) "bm90LWEtcG5n") = false
  /\ exportToPsd_document (H := demoBrowser) "blob:canvas100" [brokenCar; skyLayer]
     = Err (mkJsError "InvalidStateError" "The source image could not be decoded.")
  /\ ~ exists bytes,
         exportToPsd (H := demoBrowser) "blob:canvas100" [brokenCar; skyLayer] = Ok bytes.
Proof.
  split; [reflexivity |]. split; [reflexivity |]. split; [reflexivity |].
  intros [bytes Hbytes]. discriminate Hbytes.
Qed.

(** ** Normalized and absolute coordinates *)

Lemma Math_round_error (q : Q) :
  (- (1 # 2) < inject_Z (Math_round q) - q /\ inject_Z (Math_round q) - q <= 1 # 2)%Q.
Proof.
  unfold Math_round.
  pose proof (Qfloor_le (q + (1 # 2))) as Hle.
  pose proof (Qlt_floor (q + (1 # 2))) as Hlt.
  rewrite inject_Z_plus in Hlt. change (inject_Z 1) with 1%Q in Hlt.
  split; lra.
Qed.

Lemma roundHalfEven_error (q : Q) :
  (Qabs (inject_Z (roundHalfEven q) - q) <= 1 # 2)%Q.
Proof.
  unfold roundHalfEven.
  pose proof (Qfloor_le q) as Hle. pose proof (Qlt_floor q) as Hlt.
  rewrite inject_Z_plus in Hlt. change (inject_Z 1) with 1%Q in Hlt.
  apply Qabs_Qle_condition.
  destruct (q - inject_Z (Qfloor q) ?= 1 # 2)%Q eqn:Hcmp.
  - apply Qeq_alt in Hcmp. destruct (Z.even (Qfloor q));
      rewrite ?inject_Z_plus; change (inject_Z 1) with 1%Q; split; lra.
  - apply Qlt_alt in Hcmp. split; lra.
  - apply Qgt_alt in Hcmp. rewrite inject_Z_plus. change (inject_Z 1) with 1%Q.
    split; lra.
Qed.

Lemma pow2_pos (e : Z) : (0 < pow2 e)%Q.
Proof. apply Qpower_0_lt. reflexivity. Qed.

Lemma pow2_plus (a b : Z) : (pow2 (a + b) == pow2 a * pow2 b)%Q.
Proof. apply Qpower_plus. discriminate. Qed.

Lemma pow2_inject (n : Z) : 0 <= n -> (pow2 n == inject_Z (2 ^ n))%Q.
Proof. intros Hn. unfold pow2. symmetry. apply (Zpower_Qpower 2 n Hn). Qed.

Lemma floorLog2_lower (q : Q) : (0 < q)%Q -> (pow2 (floorLog2 q) <= q)%Q.
Proof.
  intros Hq. unfold floorLog2.
  set (a := Z.log2 (Qnum q)). set (b := Z.log2 (Z.pos (Qden q))).
  destruct (Qle_bool (pow2 (a - b)) q) eqn:Hle; [now apply Qle_bool_iff |].
  assert (Hnum : 0 < Qnum q).
  { destruct q as [n d]. unfold Qlt in Hq. cbn in *. lia. }
  pose proof (Z.log2_nonneg (Qnum q)) as Ha0.
  pose proof (Z.log2_nonneg (Z.pos (Qden q))) as Hb0.
  destruct (Z.log2_spec (Qnum q) Hnum) as [Hlow _].
  destruct (Z.log2_spec (Z.pos (Qden q)) (Pos2Z.is_pos _)) as [_ Hup].
  fold a in Hlow, Ha0. fold b in Hup, Hb0.
  replace (a - b - 1) with (a + - (b + 1)) by lia.
  rewrite pow2_plus. unfold pow2 at 2. rewrite Qpower_opp. fold (pow2 (b + 1)).
  rewrite (pow2_inject a Ha0), (pow2_inject (b + 1)) by lia.
  replace (Z.succ b) with (b + 1) in Hup by lia.
  assert (Hpos : 0 < 2 ^ (b + 1)) by (apply Z.pow_pos_nonneg; lia).
  (* inject (2^a) / inject (2^(b+1)) <= n / d *)
  destruct q as [n d]. cbn [Qnum Qden] in *.
  unfold Qle, Qmult, Qinv, inject_Z. cbn [Qnum Qden].
  destruct (2 ^ (b + 1)) as [| p | p] eqn:Hp; try lia.
  cbn [Qnum Qden]. rewrite Z.mul_1_r, Pos.mul_1_l.
  assert (Hd : Z.pos d < Z.pos p) by lia.
  nia.
Qed.
Lemma roundToDouble_error (q : Q) :
  (Qabs (roundToDouble q - q) <= Qabs q * pow2 (-53) + pow2 (-1075))%Q.
Proof.
  pose proof (pow2_pos (-53)) as HA. pose proof (pow2_pos (-1075)) as HB.
  pose proof (Qabs_nonneg q) as Hq0.
  assert (Hrhs : (0 <= Qabs q * pow2 (-53))%Q).
  { apply Qmult_le_0_compat; [exact Hq0 | apply Qlt_le_weak; exact HA]. }
  unfold roundToDouble. destruct (Qeq_bool q 0) eqn:Hzero.
  - apply Qeq_bool_iff in Hzero.
    assert (Hdiff : (Qabs (0 - q) == 0)%Q) by (rewrite Hzero; reflexivity).
    rewrite Hdiff. lra.
  - apply Qeq_bool_neq in Hzero.
    assert (Hpos : (0 < Qabs q)%Q).
    { destruct (Qlt_le_dec 0 (Qabs q)) as [Hlt | Hle]; [exact Hlt |].
      exfalso. apply Hzero. apply Qabs_Qle_condition in Hle. lra. }
    set (e := Z.max (floorLog2 (Qabs q)) (-1022)).
    set (ulp := pow2 (e - 52)).
    assert (Hulp : (0 < ulp)%Q) by apply pow2_pos.
    assert (Hne : ~ (ulp == 0)%Q) by lra.
    pose proof (roundHalfEven_error (q / ulp)) as Hr.
    set (r := inject_Z (roundHalfEven (q / ulp))) in *.
    assert (Hsplit : (r * ulp - q == (r - q / ulp) * ulp)%Q) by (field; exact Hne).
    rewrite Hsplit, Qabs_Qmult, (Qabs_pos ulp) by lra.
    assert (Hhalf : (Qabs (r - q / ulp) * ulp <= (1 # 2) * ulp)%Q).
    { apply Qmult_le_compat_r; [exact Hr | lra]. }
    assert (Hstep : ((1 # 2) * ulp == pow2 (e - 53))%Q).
    { unfold ulp. replace (e - 53) with ((e - 52) + -1) by lia.
      rewrite pow2_plus. change (pow2 (-1)) with (1 # 2)%Q. ring. }
    rewrite Hstep in Hhalf.
    assert (Hbound : (pow2 (e - 53) <= Qabs q * pow2 (-53) + pow2 (-1075))%Q).
    { subst e. destruct (Z.max_spec (floorLog2 (Qabs q)) (-1022)) as [[_ ->] | [_ ->]].
      - change (-1022 - 53) with (-1075). lra.
      - replace (floorLog2 (Qabs q) - 53) with (floorLog2 (Qabs q) + -53) by lia.
        rewrite pow2_plus.
        pose proof (floorLog2_lower (Qabs q) Hpos) as Hlow.
        assert (Hmul : (pow2 (floorLog2 (Qabs q)) * pow2 (-53) <= Qabs q * pow2 (-53))%Q).
        { apply Qmult_le_compat_r; [exact Hlow | lra]. }
        lra. }
    lra.
Qed.

(** The round trip of one coordinate, as computed in double precision. *)
Lemma toAbsolute_roundtrip (v : Q) (d : Z) :
  0 < d -> (0 <= v)%Q -> (v <= 1)%Q ->
  (Qabs (inject_Z (toAbsolute v d) / inject_Z d - v)
   <= 1 / (2 * inject_Z d) + pow2 (-52))%Q.
Proof.
  intros Hd Hv0 Hv1.
  assert (HD : (1 <= inject_Z d)%Q).
  { change 1%Q with (inject_Z 1). rewrite <- Zle_Qle. lia. }
  assert (Hinv : (0 < / inject_Z d)%Q) by (apply Qinv_lt_0_compat; lra).
  assert (Hinv1 : (/ inject_Z d <= 1)%Q).
  { apply Qle_shift_inv_r; lra. }
  unfold toAbsolute, timesDouble.
  set (q := (v * inject_Z d)%Q).
  assert (Hq0 : (0 <= q)%Q) by (apply Qmult_le_0_compat; lra).
  pose proof (roundToDouble_error q) as Hp.
  rewrite (Qabs_pos q Hq0) in Hp.
  set (p := roundToDouble q) in *.
  destruct (Math_round_error p) as [Hlo Hhi].
  set (n := inject_Z (Math_round p)) in *.
  apply Qabs_Qle_condition in Hp. destruct Hp as [Hp1 Hp2].
  pose proof (pow2_pos (-53)) as HA. pose proof (pow2_pos (-1075)) as HB.
  assert (HC : (pow2 (-53) + pow2 (-1075) <= pow2 (-52))%Q) by (vm_compute; discriminate).
  assert (E1 : (n / inject_Z d - v == (n - q) * / inject_Z d)%Q).
  { unfold q. field. lra. }
  assert (E2 : (1 / (2 * inject_Z d) == (1 # 2) * / inject_Z d)%Q).
  { field. lra. }
  rewrite E1, E2, Qabs_Qmult, (Qabs_pos (/ inject_Z d)) by lra.
  assert (Hnq : (Qabs (n - q) <= (1 # 2) + (q * pow2 (-53) + pow2 (-1075)))%Q).
  { apply Qabs_Qle_condition. split; lra. }
  assert (Hscaled : (Qabs (n - q) * / inject_Z d
                     <= ((1 # 2) + (q * pow2 (-53) + pow2 (-1075))) * / inject_Z d)%Q).
  { apply Qmult_le_compat_r; [exact Hnq | lra]. }
  assert (Hqd : (q * / inject_Z d == v)%Q) by (unfold q; field; lra).
  assert (Hterm1 : (q * pow2 (-53) * / inject_Z d <= pow2 (-53))%Q).
  { assert (Hswap : (q * pow2 (-53) * / inject_Z d == v * pow2 (-53))%Q)
      by (rewrite <- Hqd; ring).
    rewrite Hswap.
    apply Qle_trans with (1 * pow2 (-53))%Q;
      [apply Qmult_le_compat_r; lra | rewrite Qmult_1_l; apply Qle_refl]. }
  assert (Hterm2 : (pow2 (-1075) * / inject_Z d <= pow2 (-1075))%Q).
  { apply Qle_trans with (pow2 (-1075) * 1)%Q;
      [| rewrite Qmult_1_r; apply Qle_refl].
    rewrite (Qmult_comm (pow2 (-1075)) (/ inject_Z d)), (Qmult_comm (pow2 (-1075)) 1).
    apply Qmult_le_compat_r; lra. }
  assert (Hexp : (((1 # 2) + (q * pow2 (-53) + pow2 (-1075))) * / inject_Z d
                  == (1 # 2) * / inject_Z d + q * pow2 (-53) * / inject_Z d
                     + pow2 (-1075) * / inject_Z d)%Q) by ring.
  rewrite Hexp in Hscaled. lra.
Qed.

(** The exact evaluation and the double-precision evaluation of a coordinate
    are never more than one pixel apart. *)
Lemma toAbsolute_near_exact (v : Q) (d : Z) :
  0 < d <= 2 ^ 52 -> (0 <= v)%Q -> (v <= 1)%Q ->
  Z.abs (toAbsolute v d - Math_round (v * inject_Z d)) <= 1.
Proof.
  intros [Hd Hmax] Hv0 Hv1.
  assert (HD : (1 <= inject_Z d)%Q).
  { change 1%Q with (inject_Z 1). rewrite <- Zle_Qle. lia. }
  assert (HDmax : (inject_Z d <= inject_Z (2 ^ 52))%Q) by (rewrite <- Zle_Qle; exact Hmax).
  unfold toAbsolute, timesDouble.
  set (q := (v * inject_Z d)%Q).
  assert (Hq0 : (0 <= q)%Q) by (apply Qmult_le_0_compat; lra).
  assert (Hqd : (q <= inject_Z d)%Q).
  { apply Qle_trans with (1 * inject_Z d)%Q;
      [apply Qmult_le_compat_r; lra | rewrite Qmult_1_l; apply Qle_refl]. }
  pose proof (roundToDouble_error q) as Hp. rewrite (Qabs_pos q Hq0) in Hp.
  set (p := roundToDouble q) in *.
  destruct (Math_round_error p) as [Hlo Hhi].
  destruct (Math_round_error q) as [Hlo' Hhi'].
  apply Qabs_Qle_condition in Hp. destruct Hp as [Hp1 Hp2].
  pose proof (pow2_pos (-53)) as HA.
  assert (Hscale : (q * pow2 (-53) <= inject_Z (2 ^ 52) * pow2 (-53))%Q).
  { apply Qmult_le_compat_r; lra. }
  assert (Hconst : (inject_Z (2 ^ 52) * pow2 (-53) + pow2 (-1075) < 1)%Q)
    by (vm_compute; reflexivity).
  assert (Hclose : (- 2 < inject_Z (Math_round p) - inject_Z (Math_round q) < 2)%Q)
    by (split; lra).
  unfold Qminus in Hclose. rewrite <- inject_Z_opp, <- inject_Z_plus in Hclose.
  destruct Hclose as [Hc1 Hc2].
  change (- 2)%Q with (inject_Z (-2)) in Hc1. change 2%Q with (inject_Z 2) in Hc2.
  rewrite <- Zlt_Qlt in Hc1, Hc2. lia.
Qed.

(** C8, as the code has it.  The source rounds the double-precision product
    of a normalized coordinate and the canvas dimension.  For a bounding box
    with coordinates between 0 and 1 and a canvas of positive width and
    height, converting a coordinate to absolute pixels and dividing by the
    same dimension again recovers the normalized value within
    [1/(2*dimension) + 2^-52]: half a pixel for the rounding to an integer,
    and the rounding error of the product on top. *)
Theorem rectDouble_roundtrip (layer : Layer) (width height : Z) :
  0 < width -> 0 < height ->
  let bb := boundingBox layer in
  let rc := rectDouble layer width height in
  (0 <= BoundingBox.x bb <= 1)%Q -> (0 <= BoundingBox.y bb <= 1)%Q ->
  (0 <= BoundingBox.width bb <= 1)%Q -> (0 <= BoundingBox.height bb <= 1)%Q ->
  (Qabs (inject_Z (Rect.x rc) / inject_Z width - BoundingBox.x bb)
   <= 1 / (2 * inject_Z width) + pow2 (-52))%Q
  /\ (Qabs (inject_Z (Rect.y rc) / inject_Z height - BoundingBox.y bb)
      <= 1 / (2 * inject_Z height) + pow2 (-52))%Q
  /\ (Qabs (inject_Z (Rect.w rc) / inject_Z width - BoundingBox.width bb)
      <= 1 / (2 * inject_Z width) + pow2 (-52))%Q
  /\ (Qabs (inject_Z (Rect.h rc) / inject_Z height - BoundingBox.height bb)
      <= 1 / (2 * inject_Z height) + pow2 (-52))%Q.
Proof.
  intros Hw Hh bb rc [Hx0 Hx1] [Hy0 Hy1] [Hw0 Hw1] [Hh0 Hh1]. subst bb rc.
  cbn [rectDouble Rect.x Rect.y Rect.w Rect.h].
  repeat split; apply toAbsolute_roundtrip; assumption.
Qed.

Lemma rectDouble_roundtrip_witness :
  0 < 10
  /\ rectDouble offsetBox 10 10 = Rect.mk 2 0 5 5
  /\ (Qabs (inject_Z (Rect.x (rectDouble offsetBox 10 10)) / inject_Z 10
            - BoundingBox.x (boundingBox offsetBox))
      <= 1 / (2 * inject_Z 10) + pow2 (-52))%Q.
Proof.
  split; [lia |]. split; [vm_compute; reflexivity |].
  refine (proj1 (rectDouble_roundtrip offsetBox 10 10 _ _ _ _ _ _));
    try lia; split; vm_compute; discriminate.
Defined.

(** C8, as the claim has it, fails: the double written [0.15] is a valid
    coordinate, its product with a canvas dimension of 10 rounds to the
    double [1.5], which [Math.round] takes to 2 (the exact product lies below
    1.5 and would give 1), and 2/10 is further than 1/(2*10) from the
    coordinate. *)
Lemma rectDouble_exceeds_half_pixel :
  let x := BoundingBox.x (boundingBox offsetBox) in
  (roundToDouble x == x)%Q
  /\ (0 <= x <= 1)%Q
  /\ (x * inject_Z 10 < 3 # 2)%Q
  /\ (timesDouble x (inject_Z 10) == 3 # 2)%Q
  /\ Rect.x (rectDouble offsetBox 10 10) = 2
  /\ Rect.x (rect offsetBox 10 10) = 1
  /\ ~ (Qabs (inject_Z (Rect.x (rectDouble offsetBox 10 10)) / inject_Z 10 - x)
        <= 1 / (2 * inject_Z 10))%Q.
Proof.
  cbv zeta. split; [vm_compute; reflexivity |].
  split; [split; vm_compute; discriminate |].
  split; [vm_compute; reflexivity |]. split; [vm_compute; reflexivity |].
  split; [vm_compute; reflexivity |]. split; [vm_compute; reflexivity |].
  intros Hle. vm_compute in Hle. apply Hle. reflexivity.
Qed.

(** ** The decomposition client *)

Ltac run_client :=
  unfold tryCatch, bindM, callModel, readLayer, lift, throw, ret, console_error,
    afterFailure, afterRequest;
  cbn [layerObjects console sent].

Section Decomposition.
Context `{GenAI}.
Variables base64Image mimeType : string.

(** The client, path by path. *)
Lemma analyzeImageForLayers_run (w : World) :
  analyzeImageForLayers base64Image mimeType w
  = let rq := analyzeRequest base64Image mimeType in
    let failed cause := (afterFailure w rq "Error calling Gemini API:" cause, analyzeFailure) in
    match generateContent rq with
    | Err e => failed e
    | Ok response =>
        if negb (truthyString (responseText response))
        then failed (Error "API returned an empty response.")
        else
          match JSON_parse (default EmptyString (responseText response)) with
          | Err e => failed e
          | Ok parsedJson =>
              match invalidStructure parsedJson with
              | Err e => failed e
              | Ok true => failed (Error "Invalid JSON structure received from API.")
              | Ok false => (afterRequest w rq, Ok (asLayers parsedJson))
              end
          end
    end.
Proof.
  unfold analyzeImageForLayers, analyzeRequest. run_client.
  destruct (generateContent _) as [response | e]; [| reflexivity].
  destruct (negb (truthyString (responseText response))); [reflexivity |].
  run_client.
  destruct (JSON_parse _) as [parsedJson | e]; [| reflexivity].
  destruct (invalidStructure parsedJson) as [[|] | e]; reflexivity.
Qed.

Lemma lacksField_fields (item : Json) :
  item <> JNull -> lacksField item = Ok (negb (hasRequiredFields item)).
Proof.
  intros Hnull. destruct item as [| b | q | s | items | members];
    try reflexivity; [congruence |].
  unfold lacksField, hasRequiredFields. cbn [getProp bind].
  destruct (truthy (assoc "name" members)); [| reflexivity].
  destruct (truthy (assoc "description" members)); [| reflexivity].
  destruct (truthy (assoc "type" members)); [| reflexivity].
  reflexivity.
Qed.

Lemma hasRequiredFields_not_null (item : Json) :
  hasRequiredFields item = true -> item <> JNull.
Proof. intros Hf ->. discriminate Hf. Qed.

Lemma some_lacksField_accepts (items : list Json) :
  forallb hasRequiredFields items = true -> some lacksField items = Ok false.
Proof.
  induction items as [| item rest IH]; [reflexivity |].
  cbn [forallb some]. intros [Hitem Hrest]%andb_true_iff.
  rewrite (lacksField_fields item (hasRequiredFields_not_null item Hitem)), Hitem.
  cbn. exact (IH Hrest).
Qed.

Lemma some_lacksField_rejects (items : list Json) :
  forallb hasRequiredFields items = false -> some lacksField items <> Ok false.
Proof.
  induction items as [| item rest IH]; [discriminate |].
  cbn [forallb some]. intros Hall.
  destruct item as [| b | q | s | arr | members] eqn:Hitem;
    try (cbn; discriminate).
  rewrite lacksField_fields by discriminate.
  destruct (hasRequiredFields (JObject members)); cbn [negb bind]; [| discriminate].
  apply IH. exact Hall.
Qed.

(** The outcome for a response that parses. *)
Lemma analyzeImageForLayers_parsed (w : World) (response : GenerateContentResponse)
      (txt : string) (parsedJson : Json) :
  generateContent (analyzeRequest base64Image mimeType) = Ok response ->
  responseText response = Some txt ->
  txt <> EmptyString ->
  JSON_parse txt = Ok parsedJson ->
  snd (analyzeImageForLayers base64Image mimeType w)
  = match invalidStructure parsedJson with
    | Ok false => Ok (asLayers parsedJson)
    | _ => analyzeFailure
    end.
Proof.
  intros Hcall Htxt Hne Hparse. rewrite analyzeImageForLayers_run. cbv zeta.
  rewrite Hcall, Htxt. cbn [truthyString default from_option id].
  rewrite bool_decide_eq_false_2 by exact Hne. cbn [negb]. rewrite Hparse.
  destruct (invalidStructure parsedJson) as [[|] | e]; reflexivity.
Qed.

Lemma analyzeImageForLayers_call_fails (w : World) (e : JsError) :
  generateContent (analyzeRequest base64Image mimeType) = Err e ->
  analyzeImageForLayers base64Image mimeType w
  = (afterFailure w (analyzeRequest base64Image mimeType) "Error calling Gemini API:" e,
     analyzeFailure).
Proof.
  intros Hcall. rewrite analyzeImageForLayers_run. cbv zeta. rewrite Hcall. reflexivity.
Qed.
End Decomposition.

Section Validation.
Context `{GenAI}.
Variables (base64Image mimeType : string) (w : World).
Variables (response : GenerateContentResponse) (txt : string) (parsedJson : Json).
Hypothesis Hcall : generateContent (analyzeRequest base64Image mimeType) = Ok response.
Hypothesis Htxt : responseText response = Some txt.
Hypothesis Hne : txt <> EmptyString.
Hypothesis Hparse : JSON_parse txt = Ok parsedJson.

Lemma analyzeImageForLayers_array (items : list Json) :
  parsedJson = JArray items ->
  snd (analyzeImageForLayers base64Image mimeType w)
  = if forallb hasRequiredFields items
    then Ok items
    else Err (Error "Failed to communicate with the AI model.").
Proof.
  intros ->.
  rewrite (analyzeImageForLayers_parsed _ _ w response txt _ Hcall Htxt Hne Hparse).
  cbn [invalidStructure asLayers].
  destruct (forallb hasRequiredFields items) eqn:Hall.
  - rewrite (some_lacksField_accepts items Hall). reflexivity.
  - pose proof (some_lacksField_rejects items Hall) as Hrej.
    destruct (some lacksField items) as [[|] | e]; first [reflexivity | congruence].
Qed.

Lemma analyzeImageForLayers_not_array :
  (forall items, parsedJson <> JArray items) ->
  snd (analyzeImageForLayers base64Image mimeType w)
  = Err (Error "Failed to communicate with the AI model.").
Proof.
  intros Hnot.
  rewrite (analyzeImageForLayers_parsed _ _ w response txt _ Hcall Htxt Hne Hparse).
  destruct parsedJson as [| b | q | s | items | members]; try reflexivity.
  destruct (Hnot items eq_refl).
Qed.
End Validation.

(** C9.  For a response whose text is non-empty and parses, the call returns
    a list exactly when the parsed value is an array all of whose elements
    have truthy [name], [description], [type] and [boundingBox], and the list
    returned is that array itself.  Hence an array whose elements carry
    non-empty strings as [name], [description] and [type] (whatever the
    string of [type]) and any object as [boundingBox] (even one without
    members) is returned unchanged, while an array with an element whose
    [name] or [description] is the empty string makes the call fail. *)
Theorem analyzeImageForLayers_validation `{GenAI} (base64Image mimeType : string) (w : World)
        (response : GenerateContentResponse) (txt : string) (parsedJson : Json) :
  generateContent (analyzeRequest base64Image mimeType) = Ok response ->
  responseText response = Some txt ->
  txt <> EmptyString ->
  JSON_parse txt = Ok parsedJson ->
  let outcome := snd (analyzeImageForLayers base64Image mimeType w) in
  (forall layers,
      outcome = Ok layers
      <-> parsedJson = JArray layers /\ forallb hasRequiredFields layers = true)
  /\ (forall items,
         parsedJson = JArray items ->
         Forall (fun item =>
                   exists members n d t bb,
                     item = JObject members
                     /\ assoc "name" members = Some (JString n) /\ n <> EmptyString
                     /\ assoc "description" members = Some (JString d) /\ d <> EmptyString
                     /\ assoc "type" members = Some (JString t) /\ t <> EmptyString
                     /\ assoc "boundingBox" members = Some (JObject bb)) items ->
         outcome = Ok items)
  /\ (forall items members,
         parsedJson = JArray items ->
         JObject members ∈ items ->
         assoc "name" members = Some (JString EmptyString)
         \/ assoc "description" members = Some (JString EmptyString) ->
         outcome = Err (Error "Failed to communicate with the AI model.")).
Proof.
  intros Hcall Htxt Hne Hparse outcome. subst outcome.
  pose proof (analyzeImageForLayers_array base64Image mimeType w response txt parsedJson
                Hcall Htxt Hne Hparse) as Harr.
  pose proof (analyzeImageForLayers_not_array base64Image mimeType w response txt parsedJson
                Hcall Htxt Hne Hparse) as Hnot.
  split; [| split].
  - intros layers. split.
    + intros Hok.
      destruct parsedJson as [| b | q | s | items | members];
        try (rewrite Hnot in Hok by discriminate; discriminate Hok).
      rewrite (Harr items eq_refl) in Hok.
      destruct (forallb hasRequiredFields items) eqn:Hall; [| discriminate Hok].
      injection Hok as <-. split; [reflexivity | exact Hall].
    + intros [Hj Hall]. rewrite (Harr layers Hj), Hall. reflexivity.
  - intros items Hj Hloose. rewrite (Harr items Hj).
    replace (forallb hasRequiredFields items) with true; [reflexivity |].
    symmetry. apply forallb_forall. intros item Hin.
    rewrite Forall_forall in Hloose.
    destruct (Hloose item (proj2 (list_elem_of_In _ _) Hin))
      as (members & n & d & t & bb & -> & Hn & Hn' & Hd & Hd' & Ht & Ht' & Hbb).
    cbn [hasRequiredFields]. rewrite Hn, Hd, Ht, Hbb. cbn [truthy].
    rewrite !bool_decide_eq_false_2 by assumption. reflexivity.
  - intros items members Hj Hin Hempty. rewrite (Harr items Hj).
    destruct (forallb hasRequiredFields items) eqn:Hall; [| reflexivity].
    rewrite forallb_forall in Hall.
    specialize (Hall (JObject members) (proj1 (list_elem_of_In _ _) Hin)).
    cbn [hasRequiredFields] in Hall.
    destruct Hempty as [He | He]; rewrite He in Hall; cbn in Hall;
      rewrite ?andb_false_r in Hall; discriminate Hall.
Qed.

(** The model answers with an element of type [banana] and an empty
    [boundingBox]; the element is returned as a layer. *)
Lemma analyzeImageForLayers_validation_witness :
  generateContent (GenAI := demoGenAI) (analyzeRequest "bG9vc2U=" "image/png")
  = Ok (mkResponse None (Some looseText))
  /\ looseText <> EmptyString
  /\ JSON_parse (GenAI := demoGenAI) looseText = Ok (JArray [looseItem])
  /\ snd (analyzeImageForLayers (H := demoGenAI) "bG9vc2U=" "image/png" demoWorld)
     = Ok [looseItem].
Proof.
  split; [reflexivity |]. split; [discriminate |]. split; [reflexivity |].
  refine (proj1 (proj2 (analyzeImageForLayers_validation (H := demoGenAI)
           "bG9vc2U=" "image/png" demoWorld (mkResponse None (Some looseText))
           looseText (JArray [looseItem]) _ _ _ _)) [looseItem] eq_refl _);
    try reflexivity; try discriminate.
  constructor; [| constructor].
  exists [("name", JString "Sky"); ("description", JString "A pale blue sky.");
          ("type", JString "banana"); ("boundingBox", JObject [])],
    "Sky", "A pale blue sky.", "banana", [].
  repeat split; try reflexivity; discriminate.
Defined.

(** The outcome of a call that completes, against the contract's reading of
    the response. *)
Lemma analyzeImageForLayers_completed `{GenAI} (base64Image mimeType : string) (w : World)
      (response : GenerateContentResponse) :
  generateContent (analyzeRequest base64Image mimeType) = Ok response ->
  snd (analyzeImageForLayers base64Image mimeType w)
  = match acceptedLayers response with
    | Some items => Ok items
    | None => analyzeFailure
    end.
Proof.
  intros Hcall. unfold acceptedLayers.
  destruct (responseText response) as [txt |] eqn:Htxt.
  - destruct (bool_decide (txt = EmptyString)) eqn:Hempty.
    + rewrite analyzeImageForLayers_run. cbv zeta. rewrite Hcall, Htxt.
      cbn [truthyString]. rewrite Hempty. reflexivity.
    + apply bool_decide_eq_false in Hempty.
      destruct (JSON_parse txt) as [parsedJson | e] eqn:Hparse.
      * destruct parsedJson as [| b | q | s | items | members];
          try (apply (analyzeImageForLayers_not_array _ _ w response txt _
                        Hcall Htxt Hempty Hparse); discriminate).
        rewrite (analyzeImageForLayers_array _ _ w response txt _
                   Hcall Htxt Hempty Hparse items eq_refl).
        destruct (forallb hasRequiredFields items); reflexivity.
      * rewrite analyzeImageForLayers_run. cbv zeta. rewrite Hcall, Htxt.
        cbn [truthyString default from_option id].
        rewrite bool_decide_eq_false_2 by exact Hempty. cbn [negb].
        rewrite Hparse. reflexivity.
  - rewrite analyzeImageForLayers_run. cbv zeta. rewrite Hcall, Htxt. reflexivity.
Qed.

(** An array with an element that lacks a required field is not accepted. *)
Lemma acceptedLayers_missing_field `{GenAI} (response : GenerateContentResponse)
      (txt : string) (items : list Json) (item : Json) :
  responseText response = Some txt ->
  JSON_parse txt = Ok (JArray items) ->
  item ∈ items ->
  hasRequiredFields item = false ->
  acceptedLayers response = None.
Proof.
  intros Htxt Hparse Hin Hitem. unfold acceptedLayers. rewrite Htxt.
  destruct (bool_decide (txt = EmptyString)); [reflexivity |]. rewrite Hparse.
  destruct (forallb hasRequiredFields items) eqn:Hall; [| reflexivity].
  rewrite forallb_forall in Hall.
  rewrite (Hall item (proj1 (list_elem_of_In _ _) Hin)) in Hitem. discriminate Hitem.
Qed.

(** The error that [some] ends with when an element lacks a field. *)
Lemma some_lacksField_cause (items : list Json) :
  forallb hasRequiredFields items = false ->
  match find (fun item => negb (hasRequiredFields item)) items with
  | Some JNull =>
      exists e, some lacksField items = Err e /\ errorClass e = "TypeError"
  | _ => some lacksField items = Ok true
  end.
Proof.
  induction items as [| item rest IH]; [discriminate |].
  cbn [forallb find some]. destruct (hasRequiredFields item) eqn:Hitem.
  - cbn [negb andb]. intros Hrest.
    rewrite (lacksField_fields item (hasRequiredFields_not_null item Hitem)), Hitem.
    cbn [negb bind]. exact (IH Hrest).
  - cbn [negb]. intros _. destruct item as [| b | q | s | arr | members];
      try reflexivity.
    + eexists. split; reflexivity.
    + rewrite lacksField_fields by discriminate. rewrite Hitem. reflexivity.
Qed.

(** What a completed response that is not accepted leaves on the console. *)
Lemma analyzeImageForLayers_rejected_console `{GenAI} (base64Image mimeType : string)
      (w : World) (response : GenerateContentResponse) :
  generateContent (analyzeRequest base64Image mimeType) = Ok response ->
  acceptedLayers response = None ->
  exists cause,
    console (fst (analyzeImageForLayers base64Image mimeType w))
    = console w ++ [("Error calling Gemini API:", cause)]
    /\ rejectionCause response cause.
Proof.
  intros Hcall Hbad. rewrite analyzeImageForLayers_run. cbv zeta. rewrite Hcall.
  unfold acceptedLayers in Hbad. unfold rejectionCause.
  destruct (responseText response) as [txt |]; cbn [truthyString negb];
    [| eexists; split; reflexivity].
  destruct (bool_decide (txt = EmptyString)); cbn [negb default from_option id];
    [eexists; split; reflexivity |].
  destruct (JSON_parse txt) as [parsedJson | e]; [| eexists; split; reflexivity].
  destruct parsedJson as [| b | q | s | items | members];
    try (eexists; split; reflexivity).
  cbn [invalidStructure].
  destruct (forallb hasRequiredFields items) eqn:Hall; [discriminate Hbad |].
  pose proof (some_lacksField_cause items Hall) as Hcause.
  destruct (find (fun item => negb (hasRequiredFields item)) items)
    as [[| b | q | s | arr | members] |];
    try (rewrite Hcause; eexists; split; reflexivity).
  destruct Hcause as (e & -> & Hclass). exists e. split; [reflexivity | exact Hclass].
Qed.

(** C4, as the code has it.  A completed response that is not a well-formed
    array of records with the four required fields (no text, text that does
    not parse, a value that is not an array, or an array with an element that
    lacks a field) makes the whole call fail: no list is returned, not even
    of the elements that are complete.  The error that reaches the caller is
    the generic [Error] of the handler, and it is the very error the caller
    gets when the remote call cannot be completed.  The cause is written to
    the console and nowhere else: for a rejected response the error
    described by [rejectionCause], for a call that cannot be completed the
    error of the remote call. *)
Theorem analyzeImageForLayers_rejects_whole_response `{GenAI}
        (base64Image mimeType : string) (w : World) (response : GenerateContentResponse) :
  generateContent (analyzeRequest base64Image mimeType) = Ok response ->
  acceptedLayers response = None ->
  let outcome := snd (analyzeImageForLayers base64Image mimeType w) in
  outcome = Err (Error "Failed to communicate with the AI model.")
  /\ (forall layers, outcome <> Ok layers)
  /\ (forall (unreachable : GenAI) (e : JsError) (w' : World),
         generateContent (GenAI := unreachable) (analyzeRequest base64Image mimeType) = Err e ->
         snd (analyzeImageForLayers (H := unreachable) base64Image mimeType w') = outcome
         /\ console (fst (analyzeImageForLayers (H := unreachable) base64Image mimeType w'))
            = console w' ++ [("Error calling Gemini API:", e)])
  /\ (exists cause,
         console (fst (analyzeImageForLayers base64Image mimeType w))
         = console w ++ [("Error calling Gemini API:", cause)]
         /\ rejectionCause response cause).
Proof.
  intros Hcall Hbad outcome.
  assert (Hout : outcome = Err (Error "Failed to communicate with the AI model.")).
  { subst outcome.
    rewrite (analyzeImageForLayers_completed _ _ w response Hcall), Hbad. reflexivity. }
  split; [exact Hout |]. split; [| split].
  - intros layers. rewrite Hout. discriminate.
  - intros unreachable e w' Hdown.
    rewrite (analyzeImageForLayers_call_fails (H := unreachable) _ _ w' e Hdown), Hout.
    split; reflexivity.
  - exact (analyzeImageForLayers_rejected_console _ _ w response Hcall Hbad).
Qed.

(** The second element of the array has no [boundingBox]; the first, which
    is complete, is not returned either, and the console holds the client's
    error about the structure. *)
Lemma analyzeImageForLayers_rejects_whole_response_witness :
  generateContent (GenAI := demoGenAI) (analyzeRequest "cGFydGlhbA==" "image/png")
  = Ok (mkResponse None (Some partialText))
  /\ JSON_parse (GenAI := demoGenAI) partialText = Ok (JArray partialItems)
  /\ map hasRequiredFields partialItems = [true; false]
  /\ acceptedLayers (H := demoGenAI) (mkResponse None (Some partialText)) = None
  /\ snd (analyzeImageForLayers (H := demoGenAI) "cGFydGlhbA==" "image/png" demoWorld)
     = Err (Error "Failed to communicate with the AI model.")
  /\ console (fst (analyzeImageForLayers (H := demoGenAI) "cGFydGlhbA==" "image/png" demoWorld))
     = [("Error calling Gemini API:", Error "Invalid JSON structure received from API.")].
Proof.
  split; [reflexivity |]. split; [reflexivity |]. split; [reflexivity |].
  split; [reflexivity |].
  destruct (analyzeImageForLayers_rejects_whole_response (H := demoGenAI)
              "cGFydGlhbA==" "image/png" demoWorld (mkResponse None (Some partialText)))
    as (Hout & _ & _ & cause & Hconsole & Hcause); [reflexivity | reflexivity |].
  cbv zeta in Hout. split; [exact Hout |].
  rewrite Hconsole. vm_compute in Hcause. rewrite Hcause. reflexivity.
Defined.

(** C4, as the claim has it, fails on the kind of the failure: a response
    with an element without [boundingBox] and a service that cannot be
    reached end in the same error, and only the console tells them apart.
    Besides, the records are checked for the presence of the four fields
    only: an element of an unknown type with an empty bounding box is
    returned as a layer. *)
Lemma analyzeImageForLayers_failure_kinds_coincide :
  let violation := analyzeImageForLayers (H := demoGenAI) "cGFydGlhbA==" "image/png" demoWorld in
  let unreachable := analyzeImageForLayers (H := demoGenAI) "b2ZmbGluZQ==" "image/png" demoWorld in
  generateContent (GenAI := demoGenAI) (analyzeRequest "cGFydGlhbA==" "image/png")
  = Ok (mkResponse None (Some partialText))
  /\ JSON_parse (GenAI := demoGenAI) partialText = Ok (JArray partialItems)
  /\ forallb hasRequiredFields partialItems = false
  /\ generateContent (GenAI := demoGenAI) (analyzeRequest "b2ZmbGluZQ==" "image/png")
     = Err (mkJsError "ApiError" "fetch failed")
  /\ snd violation = snd unreachable
  /\ snd violation = Err (Error "Failed to communicate with the AI model.")
  /\ console (fst violation)
     = [("Error calling Gemini API:", Error "Invalid JSON structure received from API.")]
  /\ console (fst unreachable)
     = [("Error calling Gemini API:", mkJsError "ApiError" "fetch failed")]
  /\ snd (analyzeImageForLayers (H := demoGenAI) "bG9vc2U=" "image/png" demoWorld)
     = Ok [JObject [("name", JString "Sky"); ("description", JString "A pale blue sky.");
                    ("type", JString "banana"); ("boundingBox", JObject [])]].
Proof. cbv zeta. repeat split; vm_compute; reflexivity. Qed.

(** ** The extraction client *)

Section Extraction.
Context `{GenAI}.
Variables base64Image mimeType : string.

(** The client, path by path. *)
Lemma extractImageLayer_run (layer : nat) (w : World) :
  extractImageLayer base64Image mimeType layer w
  = match layerObjects w !! layer with
    | None => (w, Err (TypeError "Cannot read properties of undefined"))
    | Some layerObj =>
        let rq := extractRequest base64Image mimeType layerObj in
        let failed cause :=
          (afterFailure w rq "Error calling Gemini API for image extraction:" cause,
           extractFailure) in
        match generateContent rq with
        | Err e => failed e
        | Ok response =>
            match firstCandidateParts response with
            | Err e => failed e
            | Ok ps =>
                match firstInlineData ps with
                | Some d => (afterRequest w rq, Ok d)
                | None =>
                    failed (Error "No image data found in AI response for extraction.")
                end
            end
        end
    end.
Proof.
  unfold extractImageLayer, extractRequest. run_client.
  destruct (layerObjects w !! layer) as [layerObj |]; [| reflexivity].
  run_client.
  destruct (generateContent _) as [response | e]; [| reflexivity].
  destruct (firstCandidateParts response) as [ps | e]; [| reflexivity].
  destruct (firstInlineData ps); reflexivity.
Qed.

(** No path writes to a layer object. *)
Lemma extractImageLayer_frame (layer : nat) (w : World) :
  layerObjects (fst (extractImageLayer base64Image mimeType layer w)) = layerObjects w.
Proof.
  rewrite extractImageLayer_run.
  destruct (layerObjects w !! layer) as [layerObj |]; [| reflexivity].
  cbv zeta. destruct (generateContent _) as [response | e]; [| reflexivity].
  destruct (firstCandidateParts response) as [ps | e]; [| reflexivity].
  destruct (firstInlineData ps); reflexivity.
Qed.

(** Every path on which the layer reference is live sends one request. *)
Lemma extractImageLayer_sent (layer : nat) (w : World) (layerObj : Layer) :
  layerObjects w !! layer = Some layerObj ->
  sent (fst (extractImageLayer base64Image mimeType layer w))
  = sent w ++ [extractRequest base64Image mimeType layerObj].
Proof.
  intros Hlayer. rewrite extractImageLayer_run, Hlayer. cbv zeta.
  destruct (generateContent _) as [response | e]; [| reflexivity].
  destruct (firstCandidateParts response) as [ps | e]; [| reflexivity].
  destruct (firstInlineData ps); reflexivity.
Qed.

(** The outcome depends on the world through the referenced layer only. *)
Lemma extractImageLayer_outcome (layer : nat) (w : World) (layerObj : Layer) :
  layerObjects w !! layer = Some layerObj ->
  snd (extractImageLayer base64Image mimeType layer w)
  = match generateContent (extractRequest base64Image mimeType layerObj) with
    | Err e => extractFailure
    | Ok response =>
        match firstCandidateParts response with
        | Err e => extractFailure
        | Ok ps =>
            match firstInlineData ps with
            | Some d => Ok d
            | None => extractFailure
            end
        end
    end.
Proof.
  intros Hlayer. rewrite extractImageLayer_run, Hlayer. cbv zeta.
  destruct (generateContent _) as [response | e]; [| reflexivity].
  destruct (firstCandidateParts response) as [ps | e]; [| reflexivity].
  destruct (firstInlineData ps); reflexivity.
Qed.
End Extraction.

Lemma firstInlineData_first (before after : list Part) (part : Part) (blob : Blob) :
  Forall (fun p => inlineData p = None) before ->
  inlineData part = Some blob ->
  firstInlineData (before ++ part :: after) = Some (blobData blob).
Proof.
  intros Hbefore Hpart. induction Hbefore as [| p rest Hp _ IH]; cbn.
  - rewrite Hpart. reflexivity.
  - rewrite Hp. exact IH.
Qed.

Lemma firstInlineData_none (ps : list Part) :
  Forall (fun p => inlineData p = None) ps -> firstInlineData ps = None.
Proof.
  intros Hall. induction Hall as [| p rest Hp _ IH]; cbn; [reflexivity |].
  rewrite Hp. exact IH.
Qed.

(** C6, as the code has it.  When the call completes and the first candidate
    has parts, the client returns the data of the first part that carries
    inline data, whatever that data is: the part is chosen by the presence
    of [inlineData], so data that is empty is returned too.  When no part
    carries inline data the call fails and nothing is returned; the error
    that reaches the caller is the generic [Error] of the handler, the very
    error the caller gets when the remote call cannot be completed.  The
    cause is written to the console and nowhere else: the client's error
    about the missing image in the first case, the error of the remote call
    in the second. *)
Theorem extractImageLayer_first_inline_data `{GenAI} (base64Image mimeType : string)
        (layer : nat) (w : World) (layerObj : Layer)
        (response : GenerateContentResponse) (ps : list Part) :
  layerObjects w !! layer = Some layerObj ->
  generateContent (extractRequest base64Image mimeType layerObj) = Ok response ->
  firstCandidateParts response = Ok ps ->
  let outcome := snd (extractImageLayer base64Image mimeType layer w) in
  (forall before part blob after,
      ps = before ++ part :: after ->
      Forall (fun p => inlineData p = None) before ->
      inlineData part = Some blob ->
      outcome = Ok (blobData blob))
  /\ (Forall (fun p => inlineData p = None) ps ->
      outcome = Err (Error "Failed to extract image layer with the AI model.")
      /\ console (fst (extractImageLayer base64Image mimeType layer w))
         = console w ++ [("Error calling Gemini API for image extraction:",
                          Error "No image data found in AI response for extraction.")]
      /\ forall (unreachable : GenAI) (e : JsError),
           generateContent (GenAI := unreachable)
             (extractRequest (H := unreachable) base64Image mimeType layerObj) = Err e ->
           snd (extractImageLayer (H := unreachable) base64Image mimeType layer w) = outcome
           /\ console (fst (extractImageLayer (H := unreachable) base64Image mimeType layer w))
              = console w ++ [("Error calling Gemini API for image extraction:", e)]).
Proof.
  intros Hlayer Hcall Hparts outcome. subst outcome.
  rewrite (extractImageLayer_outcome _ _ layer w layerObj Hlayer), Hcall, Hparts.
  split.
  - intros before part blob after -> Hbefore Hpart.
    rewrite (firstInlineData_first before after part blob Hbefore Hpart). reflexivity.
  - intros Hnone. rewrite (firstInlineData_none ps Hnone). split; [reflexivity |]. split.
    + rewrite extractImageLayer_run, Hlayer. cbv zeta.
      rewrite Hcall, Hparts, (firstInlineData_none ps Hnone). reflexivity.
    + intros unreachable e Hdown.
      rewrite (extractImageLayer_outcome (H := unreachable) _ _ layer w layerObj Hlayer), Hdown.
      split; [reflexivity |].
      rewrite (extractImageLayer_run (H := unreachable)), Hlayer. cbv zeta.
      rewrite Hdown. reflexivity.
Qed.

(** The response holds a text part, then two parts with inline data; the
    data of the first of the two is returned. *)
Lemma extractImageLayer_first_inline_data_witness :
  layerObjects demoWorld !! 0%nat = Some skyLayer
  /\ generateContent (GenAI := demoGenAI) (extractRequest (H := demoGenAI) "Y2Fy" "image/png" skyLayer)
     = Ok cutoutResponse
  /\ snd (extractImageLayer (H := demoGenAI) "Y2Fy" "image/png" 0%nat demoWorld)
     = Ok "Y3V0b3V0".
Proof.
  split; [reflexivity |]. split; [reflexivity |].
  refine (proj1 (extractImageLayer_first_inline_data (H := demoGenAI) "Y2Fy" "image/png"
           0%nat demoWorld skyLayer cutoutResponse _ eq_refl eq_refl eq_refl)
           [mkPart None (Some "Here is the cutout.")]
           (mkPart (Some (mkBlob "image/png" "Y3V0b3V0")) None)
           (mkBlob "image/png" "Y3V0b3V0")
           [mkPart (Some (mkBlob "image/png" "c2Vjb25k")) None]
           eq_refl _ eq_refl).
  constructor; [reflexivity | constructor].
Defined.

(** C6, as the claim has it, fails on the kind of the failure: a response
    without an image and a service that cannot be reached end in the same
    error, and only the console tells them apart.  It fails too on the
    result never being empty: a first inline part whose data is the empty
    string is returned as the result. *)
Lemma extractImageLayer_failure_kinds_coincide :
  let empty := extractImageLayer (H := demoGenAI) "dGV4dA==" "image/png" 0%nat demoWorld in
  let unreachable := extractImageLayer (H := demoGenAI) "b2ZmbGluZQ==" "image/png" 0%nat demoWorld in
  generateContent (GenAI := demoGenAI) (extractRequest (H := demoGenAI) "dGV4dA==" "image/png" skyLayer)
  = Ok textOnlyResponse
  /\ firstCandidateParts textOnlyResponse
     = Ok [mkPart None (Some "I could not isolate the object.")]
  /\ generateContent (GenAI := demoGenAI)
       (extractRequest (H := demoGenAI) "b2ZmbGluZQ==" "image/png" skyLayer)
     = Err (mkJsError "ApiError" "fetch failed")
  /\ snd empty = snd unreachable
  /\ snd empty = Err (Error "Failed to extract image layer with the AI model.")
  /\ console (fst empty)
     = [("Error calling Gemini API for image extraction:",
         Error "No image data found in AI response for extraction.")]
  /\ console (fst unreachable)
     = [("Error calling Gemini API for image extraction:",
         mkJsError "ApiError" "fetch failed")]
  /\ generateContent (GenAI := blankGenAI)
       (extractRequest (H := blankGenAI) "Y2Fy" "image/png" skyLayer)
     = Ok (mkResponse
             (Some [mkCandidate (Some (mkContent (Some
                [mkPart (Some (mkBlob "image/png" EmptyString)) None])))])
             None)
  /\ snd (extractImageLayer (H := blankGenAI) "Y2Fy" "image/png" 0%nat demoWorld)
     = Ok EmptyString.
Proof. cbv zeta. repeat split; vm_compute; reflexivity. Qed.

(** C7.  Whatever the outcome, the client leaves every layer object as it
    was, the cache field included, and it sends exactly one request, built
    from the bounding box and the description of the layer.  The cache field
    plays no part: with any other value in it (present or absent) the same
    request is sent and the same outcome is returned, and the layer keeps
    that value. *)
Theorem extractImageLayer_leaves_layer_untouched `{GenAI} (base64Image mimeType : string)
        (layer : nat) (w : World) (layerObj : Layer) :
  layerObjects w !! layer = Some layerObj ->
  let run := extractImageLayer base64Image mimeType layer w in
  layerObjects (fst run) = layerObjects w
  /\ sent (fst run) = sent w ++ [extractRequest base64Image mimeType layerObj]
  /\ (forall cache,
         let w' := mkWorld (<[layer := withCache cache layerObj]> (layerObjects w))
                     (console w) (sent w) in
         let run' := extractImageLayer base64Image mimeType layer w' in
         snd run' = snd run
         /\ sent (fst run') = sent (fst run)
         /\ layerObjects (fst run') = layerObjects w').
Proof.
  intros Hlayer run. subst run.
  split; [apply extractImageLayer_frame |].
  split; [apply extractImageLayer_sent; exact Hlayer |].
  intros cache w' run'. subst run'.
  assert (Hlayer' : layerObjects w' !! layer = Some (withCache cache layerObj)).
  { subst w'. cbn [layerObjects]. apply list_lookup_insert_eq.
    now apply lookup_lt_Some in Hlayer. }
  split; [| split].
  - rewrite (extractImageLayer_outcome _ _ layer w' _ Hlayer'),
      (extractImageLayer_outcome _ _ layer w _ Hlayer). reflexivity.
  - rewrite (extractImageLayer_sent _ _ layer w' _ Hlayer'),
      (extractImageLayer_sent _ _ layer w _ Hlayer). reflexivity.
  - apply extractImageLayer_frame.
Qed.

(** The second layer of the session already has a cached cutout; the client
    still sends its request, and the cache is as before. *)
Lemma extractImageLayer_leaves_layer_untouched_witness :
  layerObjects demoWorld !! 1%nat = Some cutoutCar
  /\ extractedImage cutoutCar = Some "Y3V0b3V0"
  /\ let run := extractImageLayer (H := demoGenAI) "Y2Fy" "image/png" 1%nat demoWorld in
     layerObjects (fst run) = [skyLayer; cutoutCar]
     /\ length (sent (fst run)) = 1%nat.
Proof.
  split; [reflexivity |]. split; [reflexivity |].
  destruct (extractImageLayer_leaves_layer_untouched (H := demoGenAI) "Y2Fy" "image/png"
              1%nat demoWorld cutoutCar eq_refl) as (Hframe & Hsent & _).
  cbv zeta. split; [exact Hframe |]. rewrite Hsent. reflexivity.
Defined.

(** * Further properties of the assembler *)

(** The document layer of an input layer is determined by the layer. *)
Lemma produces_functional `{Browser} (width height : Z) (layer : Layer) (o1 o2 : AgPsd.Layer) :
  produces width height layer o1 -> produces width height layer o2 -> o1 = o2.
Proof.
  intros [c1 Hex1 Hload1 | Hg1] [c2 Hex2 Hload2 | Hg2].
  - rewrite Hload1 in Hload2. injection Hload2 as ->. reflexivity.
  - rewrite Hex1 in Hg2. discriminate.
  - rewrite Hg1 in Hex2. discriminate.
  - reflexivity.
Qed.

Lemma Forall2_produces_functional `{Browser} (width height : Z) (layers : list Layer) :
  forall outs1 outs2,
    Forall2 (produces width height) layers outs1 ->
    Forall2 (produces width height) layers outs2 ->
    outs1 = outs2.
Proof.
  induction layers as [| layer rest IH]; intros outs1 outs2 H1 H2.
  - apply Forall2_nil_inv_l in H1, H2. congruence.
  - apply Forall2_cons_inv_l in H1 as (o1 & k1 & Ho1 & Hk1 & ->).
    apply Forall2_cons_inv_l in H2 as (o2 & k2 & Ho2 & Hk2 & ->).
    f_equal; [exact (produces_functional _ _ _ _ _ Ho1 Ho2) | exact (IH _ _ Hk1 Hk2)].
Qed.

(** X1.  When the original image does not load, or the scratch canvas gets
    no context, the assembly fails with one error whatever the layers are:
    no layer is looked at, no cached extraction is decoded. *)
Theorem exportToPsd_fails_before_layers `{Browser} (imageUrl : string) :
  noDecodeErrors imageUrl [] = false ->
  exists e,
    (loadImageData imageUrl = Err e
     \/ e = Error "Could not create layer canvas context")
    /\ forall layers,
         exportToPsd_document imageUrl layers = Err e
         /\ exportToPsd imageUrl layers = Err e.
Proof.
  unfold noDecodeErrors, exportToPsd, exportToPsd_document.
  destruct (loadImageData imageUrl) as [base | e] eqn:Hbase; intros Hfail.
  - cbn [forallb] in Hfail. rewrite andb_true_r in Hfail.
    exists (Error "Could not create layer canvas context").
    split; [right; reflexivity |]. intros layers. cbn [bind]. rewrite Hfail.
    split; reflexivity.
  - exists e. split; [left; reflexivity |]. intros layers. split; reflexivity.
Qed.

Lemma exportToPsd_fails_before_layers_witness :
  noDecodeErrors (H := demoBrowser) "blob:missing" [] = false
  /\ exists e, exportToPsd (H := demoBrowser) "blob:missing" [skyLayer; cutoutCar] = Err e.
Proof.
  split; [reflexivity |].
  destruct (exportToPsd_fails_before_layers (H := demoBrowser) "blob:missing" eq_refl)
    as (e & _ & Hall).
  exists e. exact (proj2 (Hall [skyLayer; cutoutCar])).
Defined.

(** A layer of another category than [image] takes the guide branch
    whatever its cache field holds. *)
Lemma exportLayer_ignores_cache `{Browser} (width height : Z) (st : LoopState)
      (layer : Layer) (cache : option string) :
  type layer <> image ->
  exportLayer width height st (withCache cache layer) = exportLayer width height st layer.
Proof.
  intros Htype. unfold exportLayer, isExtractedImage, rect.
  cbn [withCache type name boundingBox extractedImage].
  destruct (type layer); [congruence | reflexivity | reflexivity].
Qed.

(** X2.  The cache field of a [shape] or [text] layer plays no part in the
    assembly: whatever is put there, decodable or not, the outcome is the
    same, failure cases included. *)
Theorem exportToPsd_ignores_cache_of_other_categories `{Browser} (imageUrl : string)
        (layers : list Layer) (cache : Layer -> option string) :
  Forall (fun layer => type layer <> image) layers ->
  exportToPsd imageUrl (map (fun layer => withCache (cache layer) layer) layers)
  = exportToPsd imageUrl layers.
Proof.
  intros Hother. unfold exportToPsd, exportToPsd_document.
  destruct (loadImageData imageUrl) as [base | e]; [| reflexivity].
  cbn [bind]. destruct (negb _); [reflexivity |].
  f_equal. f_equal.
  generalize (mkLoopState (OffscreenCanvas (ImageData.width base) (ImageData.height base))
                [AgPsd.mkLayer "Original Image" (ImageData.data base) 0 0
                   (ImageData.width base) (ImageData.height base) None]).
  induction Hother as [| layer rest Hlayer _ IH]; intros st; [reflexivity |].
  cbn [map forOf]. rewrite (exportLayer_ignores_cache _ _ st layer _ Hlayer).
  destruct (exportLayer _ _ st layer) as [st' | e]; [apply IH | reflexivity].
Qed.

(** A [shape] layer that carries a payload no decoder accepts is assembled
    like the same layer without it. *)
Lemma exportToPsd_ignores_cache_of_other_categories_witness :
  Forall (fun layer => type layer <> image) [skyLayer]
  /\ exportToPsd (H := demoBrowser) "blob:canvas100"
       [withCache (Some "bm90LWEtcG5n") skyLayer]
     = exportToPsd (H := demoBrowser) "blob:canvas100" [skyLayer].
Proof.
  assert (Hsky : Forall (fun layer => type layer <> image) [skyLayer]).
  { constructor; [discriminate | constructor]. }
  split; [exact Hsky |].
  exact (exportToPsd_ignores_cache_of_other_categories (H := demoBrowser)
           "blob:canvas100" [skyLayer] (fun _ => Some "bm90LWEtcG5n") Hsky).
Defined.










Lemma noDecodeErrors_app `{Browser} (imageUrl : string) (layers more : list Layer) :
  noDecodeErrors imageUrl (layers ++ more) = true ->
  noDecodeErrors imageUrl layers = true.
Proof.
  unfold noDecodeErrors. destruct (loadImageData imageUrl) as [base | e]; [| discriminate].
  rewrite forallb_app, !andb_true_iff. tauto.
Qed.

(** X5.  Adding a layer at the end of the input array (on top of the stack)
    puts its document layer at the front of the file and leaves the rest of
    the document as it was. *)
Theorem exportToPsd_append_layer `{Browser} (imageUrl : string) (layers : list Layer)
        (top : Layer) :
  noDecodeErrors imageUrl (layers ++ [top]) = true ->
  exists doc doc' o,
    exportToPsd_document imageUrl layers = Ok doc
    /\ exportToPsd_document imageUrl (layers ++ [top]) = Ok doc'
    /\ produces (AgPsd.width doc) (AgPsd.height doc) top o
    /\ doc' = AgPsd.mkPsd (AgPsd.width doc) (AgPsd.height doc) (o :: AgPsd.children doc).
Proof.
  intros Hdec.
  destruct (exportToPsd_document_ok imageUrl _ Hdec) as (base' & outs' & Hbase' & Hall' & Hdoc').
  destruct (exportToPsd_document_ok imageUrl _ (noDecodeErrors_app _ _ _ Hdec))
    as (base & outs & Hbase & Hall & Hdoc).
  rewrite Hbase in Hbase'. injection Hbase' as <-.
  apply Forall2_app_inv_l in Hall' as (k1 & k2 & Hk1 & Hk2 & ->).
  rewrite (Forall2_produces_functional _ _ _ _ _ Hk1 Hall) in *.
  apply Forall2_cons_inv_l in Hk2 as (o & k & Ho & Hk & ->).
  apply Forall2_nil_inv_l in Hk as ->.
  eexists. eexists. exists o.
  split; [exact Hdoc |]. split; [exact Hdoc' |]. split; [exact Ho |].
  cbn [AgPsd.width AgPsd.height AgPsd.children]. f_equal.
  rewrite app_comm_cons, reverse_app. reflexivity.
Qed.

Lemma exportToPsd_append_layer_witness :
  noDecodeErrors (H := demoBrowser) "blob:canvas200" ([skyLayer] ++ [cutoutCar]) = true
  /\ exists doc doc' o,
       exportToPsd_document (H := demoBrowser) "blob:canvas200" [skyLayer] = Ok doc
       /\ exportToPsd_document (H := demoBrowser) "blob:canvas200" [skyLayer; cutoutCar] = Ok doc'
       /\ AgPsd.children doc' = o :: AgPsd.children doc.
Proof.
  split; [vm_compute; reflexivity |].
  destruct (exportToPsd_append_layer (H := demoBrowser) "blob:canvas200" [skyLayer] cutoutCar)
    as (doc & doc' & o & Hdoc & Hdoc' & _ & Heq); [vm_compute; reflexivity |].
  exists doc, doc', o. split; [exact Hdoc |]. split; [exact Hdoc' |].
  rewrite Heq. reflexivity.
Defined.

(** * Further properties of the clients *)

(** X6.  Every call of the decomposition client sends exactly one request,
    the image with the prompt and the response schema, and touches no layer
    object.  It writes nothing to the console when it succeeds and exactly
    one entry when it fails; every failure reaches the caller as the same
    [Error]. *)
Theorem analyzeImageForLayers_effects `{GenAI} (base64Image mimeType : string) (w : World) :
  let run := analyzeImageForLayers base64Image mimeType w in
  layerObjects (fst run) = layerObjects w
  /\ sent (fst run) = sent w ++ [analyzeRequest base64Image mimeType]
  /\ match snd run with
     | Ok _ => console (fst run) = console w
     | Err e =>
         e = Error "Failed to communicate with the AI model."
         /\ exists cause,
              console (fst run) = console w ++ [("Error calling Gemini API:", cause)]
     end.
Proof.
  cbv zeta. rewrite analyzeImageForLayers_run. cbv zeta.
  destruct (generateContent _) as [response | e]; [| cbn; eauto].
  destruct (negb (truthyString (responseText response))); [cbn; eauto |].
  destruct (JSON_parse _) as [parsedJson | e]; [| cbn; eauto].
  destruct (invalidStructure parsedJson) as [[|] | e]; cbn; eauto.
Qed.

(** X7.  The decomposition client returns a list exactly when the remote
    call completes with a response that reads as a well-formed array of
    records with the four required fields, and the list is that array. *)
Theorem analyzeImageForLayers_succeeds_iff `{GenAI} (base64Image mimeType : string)
        (w : World) (items : list Json) :
  snd (analyzeImageForLayers base64Image mimeType w) = Ok items
  <-> exists response,
        generateContent (analyzeRequest base64Image mimeType) = Ok response
        /\ acceptedLayers response = Some items.
Proof.
  destruct (generateContent (analyzeRequest base64Image mimeType)) as [response | e] eqn:Hcall.
  - rewrite (analyzeImageForLayers_completed _ _ w response Hcall). split.
    + intros Hok. exists response. split; [reflexivity |].
      destruct (acceptedLayers response) as [l |]; [| discriminate Hok].
      injection Hok as ->. reflexivity.
    + intros (response' & Heq & Hacc). injection Heq as <-. rewrite Hacc. reflexivity.
  - rewrite (analyzeImageForLayers_call_fails _ _ w e Hcall). cbn [snd]. split.
    + discriminate.
    + intros (response' & Heq & _). discriminate Heq.
Qed.

(** X8.  When the call completes but the response has no first candidate
    with a list of parts (no candidates at all, an empty list of them, a
    candidate without content, or content without parts), the extraction
    client fails with its generic [Error], having logged a [TypeError]. *)
Theorem extractImageLayer_unusable_response `{GenAI} (base64Image mimeType : string)
        (layer : nat) (w : World) (layerObj : Layer) (response : GenerateContentResponse) :
  layerObjects w !! layer = Some layerObj ->
  generateContent (extractRequest base64Image mimeType layerObj) = Ok response ->
  match candidates response with
  | Some (candidate :: _) =>
      match content candidate with
      | Some ct => parts ct = None
      | None => True
      end
  | _ => True
  end ->
  let run := extractImageLayer base64Image mimeType layer w in
  snd run = Err (Error "Failed to extract image layer with the AI model.")
  /\ exists cause,
       errorClass cause = "TypeError"
       /\ console (fst run)
          = console w ++ [("Error calling Gemini API for image extraction:", cause)].
Proof.
  intros Hlayer Hcall Hbad. cbv zeta.
  rewrite extractImageLayer_run, Hlayer. cbv zeta. rewrite Hcall.
  unfold firstCandidateParts.
  destruct (candidates response) as [[| candidate rest] |].
  - split; [reflexivity | eexists; split; [| reflexivity]; reflexivity].
  - cbn [lookup list_lookup]. destruct (content candidate) as [ct |].
    + rewrite Hbad. split; [reflexivity | eexists; split; [| reflexivity]; reflexivity].
    + split; [reflexivity | eexists; split; [| reflexivity]; reflexivity].
  - split; [reflexivity | eexists; split; [| reflexivity]; reflexivity].
Qed.

Lemma extractImageLayer_unusable_response_witness :
  layerObjects demoWorld !! 0%nat = Some skyLayer
  /\ generateContent (GenAI := silentGenAI)
       (extractRequest (H := silentGenAI) "Y2Fy" "image/png" skyLayer)
     = Ok (mkResponse (Some []) None)
  /\ snd (extractImageLayer (H := silentGenAI) "Y2Fy" "image/png" 0%nat demoWorld)
     = Err (Error "Failed to extract image layer with the AI model.").
Proof.
  split; [reflexivity |]. split; [reflexivity |].
  exact (proj1 (extractImageLayer_unusable_response (H := silentGenAI) "Y2Fy" "image/png"
                  0%nat demoWorld skyLayer (mkResponse (Some []) None) eq_refl eq_refl I)).
Defined.

(** X9.  On a live layer reference the extraction client writes nothing to
    the console when it succeeds and exactly one entry when it fails; every
    failure reaches the caller as the same [Error]. *)
Theorem extractImageLayer_console `{GenAI} (base64Image mimeType : string)
        (layer : nat) (w : World) (layerObj : Layer) :
  layerObjects w !! layer = Some layerObj ->
  let run := extractImageLayer base64Image mimeType layer w in
  match snd run with
  | Ok _ => console (fst run) = console w
  | Err e =>
      e = Error "Failed to extract image layer with the AI model."
      /\ exists cause,
           console (fst run)
           = console w ++ [("Error calling Gemini API for image extraction:", cause)]
  end.
Proof.
  intros Hlayer. cbv zeta. rewrite extractImageLayer_run, Hlayer. cbv zeta.
  destruct (generateContent _) as [response | e]; [| cbn; eauto].
  destruct (firstCandidateParts response) as [ps | e]; [| cbn; eauto].
  destruct (firstInlineData ps); cbn; eauto.
Qed.

Lemma extractImageLayer_console_witness :
  layerObjects demoWorld !! 0%nat = Some skyLayer
  /\ console (fst (extractImageLayer (H := demoGenAI) "Y2Fy" "image/png" 0%nat demoWorld)) = [].
Proof.
  split; [reflexivity |].
  exact (extractImageLayer_console (H := demoGenAI) "Y2Fy" "image/png" 0%nat demoWorld
           skyLayer eq_refl).
Defined.

(** * Strings *)

Lemma append_cons (x : ascii) (a b : string) : String x a +:+ b = String x (a +:+ b).
Proof. reflexivity. Qed.

Lemma append_empty (b : string) : EmptyString +:+ b = b.
Proof. reflexivity. Qed.

Lemma append_assoc (a b c : string) : (a +:+ b) +:+ c = a +:+ (b +:+ c).
Proof.
  induction a as [| x a IH]; [reflexivity |].
  rewrite !append_cons. f_equal. exact IH.
Qed.

Lemma indexOf_lower (c : ascii) (s : string) : -1 <= indexOf c s.
Proof.
  induction s as [| a rest IH]; cbn; [lia |].
  destruct (Ascii.eqb a c); [lia |].
  destruct (indexOf c rest <? 0) eqn:Hneg; [lia |]. apply Z.ltb_ge in Hneg. lia.
Qed.

Lemma indexOf_upper (c : ascii) (s : string) : indexOf c s < Z.of_nat (String.length s).
Proof.
  induction s as [| a rest IH]; cbn [indexOf String.length]; [lia |].
  destruct (Ascii.eqb a c); [lia |].
  destruct (indexOf c rest <? 0); lia.
Qed.

Lemma includes_cons (c a : ascii) (s : string) :
  includes c (String a s) = Ascii.eqb a c || includes c s.
Proof.
  unfold includes. cbn [indexOf]. destruct (Ascii.eqb a c); [reflexivity |].
  cbn [orb]. pose proof (indexOf_lower c s) as Hlow.
  destruct (indexOf c s <? 0) eqn:Hneg.
  - apply Z.ltb_lt in Hneg. symmetry. apply Z.leb_gt. exact Hneg.
  - apply Z.ltb_ge in Hneg. transitivity true; [apply Z.leb_le; lia |].
    symmetry. apply Z.leb_le. exact Hneg.
Qed.

Lemma includes_empty (c : ascii) : includes c EmptyString = false.
Proof. reflexivity. Qed.

Lemma includes_append (c : ascii) (a b : string) :
  includes c (a +:+ b) = includes c a || includes c b.
Proof.
  induction a as [| x a IH]; [reflexivity |].
  rewrite append_cons, !includes_cons, IH. apply orb_assoc.
Qed.

Lemma split_not_nil (sep : ascii) (s : string) : split sep s <> [].
Proof.
  destruct s as [| a rest]; cbn; [discriminate |].
  destruct (Ascii.eqb a sep); [discriminate |].
  destruct (split sep rest); discriminate.
Qed.

Lemma split_without_separator (sep : ascii) (s : string) :
  includes sep s = false -> split sep s = [s].
Proof.
  induction s as [| a rest IH]; [reflexivity |].
  rewrite includes_cons. intros [Ha Hrest]%orb_false_iff.
  cbn [split]. rewrite Ha, (IH Hrest). reflexivity.
Qed.

Lemma split_at_separator (sep : ascii) (a b : string) :
  includes sep a = false -> split sep (a +:+ String sep b) = a :: split sep b.
Proof.
  induction a as [| x a IH]; intros Hno.
  - rewrite append_empty. cbn [split]. rewrite Ascii.eqb_refl. reflexivity.
  - rewrite includes_cons in Hno. apply orb_false_iff in Hno as [Hx Ha].
    rewrite append_cons. cbn [split]. rewrite Hx, (IH Ha). reflexivity.
Qed.

(** A rendered data URL has a comma, so [split(',')] has an element of
    index 1. *)
Lemma split_renderDataUrl (u : DataUrl) :
  exists payload, split "," (renderDataUrl u) !! 1%nat = Some payload.
Proof.
  unfold renderDataUrl.
  assert (Hsplit : forall a b : string,
             exists p, split "," (a +:+ String "," b) !! 1%nat = Some p).
  { intros a b. induction a as [| x a IH].
    - rewrite append_empty. cbn [split]. rewrite Ascii.eqb_refl.
      destruct (split "," b) as [| p ps] eqn:Hb; [now apply split_not_nil in Hb |].
      exists p. reflexivity.
    - rewrite append_cons. cbn [split]. destruct (Ascii.eqb x ",").
      + destruct (split "," (a +:+ String "," b)) as [| p ps] eqn:Hb;
          [now apply split_not_nil in Hb |]. exists p. reflexivity.
      + destruct IH as [p Hp].
        destruct (split "," (a +:+ String "," b)) as [| q qs]; [discriminate Hp |].
        exists p. exact Hp. }
  replace ("data:" +:+ mediaType u +:+ ";base64," +:+ base64Data u)
    with (("data:" +:+ mediaType u +:+ ";base64") +:+ String "," (base64Data u)).
  - apply Hsplit.
  - rewrite !append_assoc. reflexivity.
Qed.

(** X10.  When the media type and the base64 content hold no comma (as is
    the case for MIME types and for the base64 alphabet), [fileToBase64]
    returns exactly the base64 content of the data URL the reader produced.
    The same cut recovers the payload from the [data:image/png;base64,...]
    URL that the assembler and the modal build from a cached extraction. *)
Theorem fileToBase64_payload `{FileApi} (file : File) (u : DataUrl) :
  readAsDataURL file = Ok u ->
  includes "," (mediaType u) = false ->
  includes "," (base64Data u) = false ->
  fileToBase64 file = Ok (base64Data u)
  /\ split "," ("data:image/png;base64," +:+ base64Data u) !! 1%nat = Some (base64Data u).
Proof.
  intros Hread Hmedia Hdata. unfold fileToBase64, renderDataUrl. rewrite Hread. cbn [bind].
  assert (Hcut : forall prefix : string,
             includes "," prefix = false ->
             split "," (prefix +:+ String "," (base64Data u)) !! 1%nat
             = Some (base64Data u)).
  { intros prefix Hprefix.
    rewrite (split_at_separator _ _ _ Hprefix), (split_without_separator _ _ Hdata).
    reflexivity. }
  split.
  - replace ("data:" +:+ mediaType u +:+ ";base64," +:+ base64Data u)
      with (("data:" +:+ mediaType u +:+ ";base64") +:+ String "," (base64Data u))
      by (rewrite !append_assoc; reflexivity).
    rewrite Hcut; [reflexivity |].
    rewrite !includes_append, Hmedia. reflexivity.
  - apply (Hcut "data:image/png;base64"). reflexivity.
Qed.

Lemma fileToBase64_payload_witness :
  readAsDataURL (FileApi := demoFileApi) posterFile = Ok (mkDataUrl "image/png" "Y2Fy")
  /\ fileToBase64 (H := demoFileApi) posterFile = Ok "Y2Fy".
Proof.
  split; [reflexivity |].
  exact (proj1 (fileToBase64_payload (H := demoFileApi) posterFile
                  (mkDataUrl "image/png" "Y2Fy") eq_refl eq_refl eq_refl)).
Defined.

Lemma length_append (a b : string) :
  String.length (a +:+ b) = (String.length a + String.length b)%nat.
Proof.
  induction a as [| x a IH]; [reflexivity |].
  rewrite append_cons. cbn [String.length]. now rewrite IH.
Qed.

Lemma lastIndexOf_none (c : ascii) (s : string) :
  includes c s = false -> lastIndexOf c s = -1.
Proof.
  induction s as [| a rest IH]; [reflexivity |].
  rewrite includes_cons. intros [Ha Hrest]%orb_false_iff.
  cbn [lastIndexOf]. rewrite (IH Hrest), Ha. reflexivity.
Qed.

Lemma lastIndexOf_last (c : ascii) (stem ext : string) :
  includes c ext = false ->
  lastIndexOf c (stem +:+ String c ext) = Z.of_nat (String.length stem).
Proof.
  intros Hext. induction stem as [| x stem IH].
  - rewrite append_empty. cbn [lastIndexOf]. rewrite (lastIndexOf_none _ _ Hext).
    cbn. rewrite Ascii.eqb_refl. reflexivity.
  - rewrite append_cons. cbn [lastIndexOf String.length]. rewrite IH.
    destruct (0 <=? Z.of_nat (String.length stem)) eqn:Hpos; [lia |].
    apply Z.leb_gt in Hpos. lia.
Qed.

Lemma substring_prefix (stem rest : string) :
  String.substring 0 (String.length stem) (stem +:+ rest) = stem.
Proof.
  induction stem as [| x stem IH].
  - rewrite append_empty. destruct rest; reflexivity.
  - rewrite append_cons. cbn [String.length String.substring]. now rewrite IH.
Qed.

Lemma substring_to_stem (stem rest : string) :
  substring (stem +:+ rest) 0 (Z.of_nat (String.length stem)) = stem.
Proof.
  unfold substring. rewrite length_append.
  replace (Z.max 0 (Z.min 0 _)) with 0 by lia.
  replace (Z.max 0 (Z.min (Z.of_nat (String.length stem)) _))
    with (Z.of_nat (String.length stem)) by lia.
  replace (Z.min 0 (Z.of_nat (String.length stem))) with 0 by lia.
  replace (Z.max 0 (Z.of_nat (String.length stem)) - 0)
    with (Z.of_nat (String.length stem)) by lia.
  rewrite Nat2Z.id. apply substring_prefix.
Qed.

Lemma substring_to_minus_one (s : string) : substring s 0 (-1) = EmptyString.
Proof.
  unfold substring.
  replace (Z.max 0 (Z.min 0 _)) with 0 by lia.
  replace (Z.max 0 (Z.min (-1) _)) with 0 by lia.
  cbn. destruct s; reflexivity.
Qed.

(** X11.  The name of the exported file, before its suffix [-layers.psd]:
    a name without a dot is kept whole; otherwise the name is cut at its last
    dot, unless nothing stands before that dot (a name such as [.htaccess]),
    in which case the whole name is kept too. *)
Theorem originalFileName_cut (file : File) :
  (includes "." (fileName file) = false -> originalFileName file = fileName file)
  /\ (forall stem ext,
         fileName file = stem +:+ String "." ext ->
         includes "." ext = false ->
         originalFileName file
         = if bool_decide (stem = EmptyString) then fileName file else stem).
Proof.
  unfold originalFileName. split.
  - intros Hno. rewrite (lastIndexOf_none _ _ Hno), substring_to_minus_one. reflexivity.
  - intros stem ext Hname Hext.
    rewrite Hname, (lastIndexOf_last _ stem ext Hext), substring_to_stem. reflexivity.
Qed.

Lemma originalFileName_cut_witness :
  fileName posterFile = "poster.final" +:+ String "." "png"
  /\ includes "." "png" = false
  /\ originalFileName posterFile = "poster.final".
Proof.
  split; [reflexivity |]. split; [reflexivity |].
  exact (proj2 (originalFileName_cut posterFile) "poster.final" "png" eq_refl eq_refl).
Defined.

(** * The handlers of the session *)

Lemma extractImageLayer_settled `{GenAI} (base64Image mimeType : string)
      (layer : nat) (w : World) (layerObj : Layer) :
  layerObjects w !! layer = Some layerObj ->
  let rq := extractRequest base64Image mimeType layerObj in
  match snd (extractImageLayer base64Image mimeType layer w) with
  | Ok _ => fst (extractImageLayer base64Image mimeType layer w) = afterRequest w rq
  | Err e =>
      e = Error "Failed to extract image layer with the AI model."
      /\ exists cause,
           fst (extractImageLayer base64Image mimeType layer w)
           = afterFailure w rq "Error calling Gemini API for image extraction:" cause
  end.
Proof.
  intros Hlayer. cbv zeta. rewrite extractImageLayer_run, Hlayer. cbv zeta.
  destruct (generateContent _) as [response | e]; [| cbn; eauto].
  destruct (firstCandidateParts response) as [ps | e]; [| cbn; eauto].
  destruct (firstInlineData ps); cbn; eauto.
Qed.

Section ExtractHandler.
Context `{GenAI} `{FileApi}.
Variables (s : Session) (file : File) (layers : list Layer).
Variables (layerIndex : nat) (targetLayer : Layer).
Hypothesis Hfile : App.imageFile (app s) = Some file.
Hypothesis Hlayers : App.layers (app s) = Some layers.
Hypothesis Htarget : layers !! layerIndex = Some targetLayer.

Lemma handleExtractLayer_cached_step (payload : string) :
  extractedImage targetLayer = Some payload ->
  payload <> EmptyString ->
  handleExtractLayer layerIndex s
  = (withApp (App.setModalImage (Some ("data:image/png;base64," +:+ payload))) s, Ok tt).
Proof.
  intros Hcache Hne. unfold handleExtractLayer.
  rewrite Hfile, Hlayers, Htarget, Hcache. cbn [truthyString].
  rewrite bool_decide_eq_false_2 by exact Hne. reflexivity.
Qed.

Lemma handleExtractLayer_success_step (base64Image extractedBase64 : string) :
  truthyString (extractedImage targetLayer) = false ->
  fileToBase64 file = Ok base64Image ->
  snd (extractImageLayer base64Image (fileType file) layerIndex
         (mkWorld layers (console_ s) (sent_ s))) = Ok extractedBase64 ->
  handleExtractLayer layerIndex s
  = (mkSession
       (App.mkState (Some file) (App.imageUrl (app s))
          (Some (<[layerIndex := withCache (Some extractedBase64) targetLayer]> layers))
          (App.isLoading (app s)) (App.statusMessage (app s)) None None
          (Some ("data:image/png;base64," +:+ extractedBase64))
          (App.isExportingPsd (app s)))
       (console_ s)
       (sent_ s ++ [extractRequest base64Image (fileType file) targetLayer])
       (downloads s),
     Ok tt).
Proof.
  intros Hmiss Hread Hok. unfold handleExtractLayer.
  rewrite Hfile, Hlayers, Htarget, Hmiss, Hread.
  cbn [withApp app console_ sent_ downloads].
  pose proof (extractImageLayer_settled base64Image (fileType file) layerIndex
                (mkWorld layers (console_ s) (sent_ s)) targetLayer Htarget) as Hrun.
  cbv zeta in Hrun. rewrite Hok in Hrun.
  destruct (extractImageLayer base64Image (fileType file) layerIndex
              (mkWorld layers (console_ s) (sent_ s))) as [w outcome].
  cbn [fst snd] in Hrun, Hok. subst w outcome.
  rewrite <- Hfile. reflexivity.
Qed.
End ExtractHandler.

(** X12.  A layer that already carries a non-empty cached extraction is not
    extracted again: the handler sends no request and logs nothing, leaves
    the layers as they are, and shows the cached image in the modal. *)
Theorem handleExtractLayer_uses_cache `{GenAI} `{FileApi} (s : Session) (file : File)
        (layers : list Layer) (layerIndex : nat) (targetLayer : Layer) (payload : string) :
  App.imageFile (app s) = Some file ->
  App.layers (app s) = Some layers ->
  layers !! layerIndex = Some targetLayer ->
  extractedImage targetLayer = Some payload ->
  payload <> EmptyString ->
  let s' := fst (handleExtractLayer layerIndex s) in
  sent_ s' = sent_ s
  /\ console_ s' = console_ s
  /\ App.layers (app s') = Some layers
  /\ App.modalImage (app s') = Some ("data:image/png;base64," +:+ payload)
  /\ App.error (app s') = App.error (app s)
  /\ App.extractingLayerIndex (app s') = App.extractingLayerIndex (app s).
Proof.
  intros Hfile Hlayers Htarget Hcache Hne. cbv zeta.
  rewrite (handleExtractLayer_cached_step s file layers layerIndex targetLayer
             Hfile Hlayers Htarget payload Hcache Hne).
  cbn. rewrite Hlayers. repeat split; reflexivity.
Qed.

Lemma handleExtractLayer_uses_cache_witness :
  [skyLayer; cutoutCar] !! 1%nat = Some cutoutCar
  /\ extractedImage cutoutCar = Some "Y3V0b3V0"
  /\ let s' := fst (handleExtractLayer (H := demoGenAI) (H0 := demoFileApi) 1%nat
                      (demoSession posterFile [skyLayer; cutoutCar])) in
     sent_ s' = [] /\ App.modalImage (app s') = Some "data:image/png;base64,Y3V0b3V0".
Proof.
  split; [reflexivity |]. split; [reflexivity |].
  destruct (handleExtractLayer_uses_cache (H := demoGenAI) (H0 := demoFileApi)
              (demoSession posterFile [skyLayer; cutoutCar]) posterFile
              [skyLayer; cutoutCar] 1%nat cutoutCar "Y3V0b3V0")
    as (Hsent & _ & _ & Hmodal & _); try reflexivity; [discriminate |].
  cbv zeta. split; [exact Hsent | exact Hmodal].
Defined.

(** X13.  When the file is read and the extraction succeeds for a layer
    without a cache, the handler sends exactly one request and fills the
    cache of that layer only: every other layer and the length of the array
    are as before.  The modal shows the cutout, no error is shown and no
    extraction is marked as running.  If the payload is not empty, invoking
    the handler again for the same layer changes nothing: no second request
    is sent. *)
Theorem handleExtractLayer_caches_result `{GenAI} `{FileApi} (s : Session) (file : File)
        (layers : list Layer) (layerIndex : nat) (targetLayer : Layer)
        (base64Image extractedBase64 : string) :
  App.imageFile (app s) = Some file ->
  App.layers (app s) = Some layers ->
  layers !! layerIndex = Some targetLayer ->
  truthyString (extractedImage targetLayer) = false ->
  fileToBase64 file = Ok base64Image ->
  snd (extractImageLayer base64Image (fileType file) layerIndex
         (mkWorld layers (console_ s) (sent_ s))) = Ok extractedBase64 ->
  let s' := fst (handleExtractLayer layerIndex s) in
  (exists layers',
      App.layers (app s') = Some layers'
      /\ length layers' = length layers
      /\ layers' !! layerIndex = Some (withCache (Some extractedBase64) targetLayer)
      /\ forall j, j <> layerIndex -> layers' !! j = layers !! j)
  /\ sent_ s' = sent_ s ++ [extractRequest base64Image (fileType file) targetLayer]
  /\ console_ s' = console_ s
  /\ App.modalImage (app s') = Some ("data:image/png;base64," +:+ extractedBase64)
  /\ App.error (app s') = None
  /\ App.extractingLayerIndex (app s') = None
  /\ (extractedBase64 <> EmptyString -> handleExtractLayer layerIndex s' = (s', Ok tt)).
Proof.
  intros Hfile Hlayers Htarget Hmiss Hread Hok. cbv zeta.
  rewrite (handleExtractLayer_success_step s file layers layerIndex targetLayer
             Hfile Hlayers Htarget base64Image extractedBase64 Hmiss Hread Hok).
  cbn [fst app console_ sent_ App.layers App.modalImage App.error
       App.extractingLayerIndex].
  assert (Hlt : (layerIndex < length layers)%nat) by (now apply lookup_lt_Some in Htarget).
  split.
  { eexists. split; [reflexivity |]. split; [apply length_insert |].
    split; [now apply list_lookup_insert_eq |].
    intros j Hj. now apply list_lookup_insert_ne. }
  repeat (split; [reflexivity |]).
  intros Hne.
  match goal with
  | |- handleExtractLayer _ ?s' = _ =>
      rewrite (handleExtractLayer_cached_step s' file
                 (<[layerIndex := withCache (Some extractedBase64) targetLayer]> layers)
                 layerIndex (withCache (Some extractedBase64) targetLayer)
                 eq_refl eq_refl (list_lookup_insert_eq _ _ _ Hlt)
                 extractedBase64 eq_refl Hne)
  end.
  reflexivity.
Qed.

Lemma handleExtractLayer_caches_result_witness :
  let s := demoSession posterFile [skyLayer; plainCar] in
  let s' := fst (handleExtractLayer (H := demoGenAI) (H0 := demoFileApi) 1%nat s) in
  fileToBase64 (H := demoFileApi) posterFile = Ok "Y2Fy"
  /\ snd (extractImageLayer (H := demoGenAI) "Y2Fy" "image/png" 1%nat
            (mkWorld [skyLayer; plainCar] [] [])) = Ok "Y3V0b3V0"
  /\ length (sent_ s') = 1%nat
  /\ App.modalImage (app s') = Some "data:image/png;base64,Y3V0b3V0"
  /\ handleExtractLayer (H := demoGenAI) (H0 := demoFileApi) 1%nat s' = (s', Ok tt).
Proof.
  cbv zeta. split; [reflexivity |]. split; [reflexivity |].
  destruct (handleExtractLayer_caches_result (H := demoGenAI) (H0 := demoFileApi)
              (demoSession posterFile [skyLayer; plainCar]) posterFile
              [skyLayer; plainCar] 1%nat plainCar "Y2Fy" "Y3V0b3V0")
    as (_ & Hsent & _ & Hmodal & _ & _ & Hagain); try reflexivity.
  cbv zeta in Hsent, Hmodal, Hagain.
  split; [rewrite Hsent; reflexivity |]. split; [exact Hmodal |].
  apply Hagain. discriminate.
Defined.

(** X14.  When the file cannot be read, or the extraction client fails, the
    handler keeps the layers and their caches, the modal and the downloads as
    they were, shows its error message, marks no extraction as running and
    logs the error.  The extraction can be tried again from the resulting
    state. *)
Theorem handleExtractLayer_failure `{GenAI} `{FileApi} (s : Session) (file : File)
        (layers : list Layer) (layerIndex : nat) (targetLayer : Layer) :
  App.imageFile (app s) = Some file ->
  App.layers (app s) = Some layers ->
  layers !! layerIndex = Some targetLayer ->
  truthyString (extractedImage targetLayer) = false ->
  match fileToBase64 file with
  | Err _ => True
  | Ok base64Image =>
      isOk (snd (extractImageLayer base64Image (fileType file) layerIndex
                   (mkWorld layers (console_ s) (sent_ s)))) = false
  end ->
  let s' := fst (handleExtractLayer layerIndex s) in
  App.layers (app s') = Some layers
  /\ App.imageFile (app s') = Some file
  /\ App.modalImage (app s') = App.modalImage (app s)
  /\ downloads s' = downloads s
  /\ App.error (app s')
     = Some "Failed to extract the layer. The AI may not have been able to isolate it."
  /\ App.extractingLayerIndex (app s') = None
  /\ exists err before, console_ s' = console_ s ++ before ++ [(EmptyString, err)].
Proof.
  intros Hfile Hlayers Htarget Hmiss Hfail. cbv zeta. unfold handleExtractLayer.
  rewrite Hfile, Hlayers, Htarget, Hmiss.
  destruct (fileToBase64 file) as [base64Image | err].
  - pose proof (extractImageLayer_settled base64Image (fileType file) layerIndex
                  (mkWorld layers (console_ s) (sent_ s)) targetLayer Htarget) as Hrun.
    cbv zeta in Hrun. cbn [withApp app console_ sent_ downloads].
    destruct (extractImageLayer base64Image (fileType file) layerIndex
                (mkWorld layers (console_ s) (sent_ s))) as [w [d | err]];
      [discriminate Hfail |].
    cbn [fst snd] in Hrun. destruct Hrun as (_ & cause & ->).
    cbn. rewrite Hfile, Hlayers. repeat (split; [reflexivity |]).
    exists err, [("Error calling Gemini API for image extraction:", cause)].
    rewrite <- app_assoc. reflexivity.
  - cbn. rewrite Hfile, Hlayers. repeat (split; [reflexivity |]).
    exists err, []. reflexivity.
Qed.

Lemma handleExtractLayer_failure_witness :
  let unreadable := mkFile "poster.png" "image/png" 1 in
  let s := demoSession unreadable [skyLayer; plainCar] in
  let s' := fst (handleExtractLayer (H := demoGenAI) (H0 := demoFileApi) 1%nat s) in
  isOk (fileToBase64 (H := demoFileApi) unreadable) = false
  /\ App.layers (app s') = Some [skyLayer; plainCar]
  /\ App.extractingLayerIndex (app s') = None.
Proof.
  cbv zeta. split; [reflexivity |].
  destruct (handleExtractLayer_failure (H := demoGenAI) (H0 := demoFileApi)
              (demoSession (mkFile "poster.png" "image/png" 1) [skyLayer; plainCar])
              (mkFile "poster.png" "image/png" 1) [skyLayer; plainCar] 1%nat plainCar)
    as (Hl & _ & _ & _ & _ & Hx & _);
    [reflexivity | reflexivity | reflexivity | reflexivity | exact I |].
  cbv zeta in Hl, Hx. split; [exact Hl | exact Hx].
Defined.

(** X15.  The export handler, when the state holds an image, its URL and
    the layers: if the assembly succeeds, exactly one file is handed to the
    user, named after the source file with the suffix [-layers.psd] and
    holding the bytes of [exportToPsd]; if it fails, no file is handed out
    and the handler's error message is shown.  Either way the layers, the
    modal and the requests sent are as before and no export is marked as
    running. *)
Theorem handleExportPsd_outcome `{Browser} (s : Session) (file : File)
        (imageUrl : string) (layers : list Layer) :
  App.imageFile (app s) = Some file ->
  App.imageUrl (app s) = Some imageUrl ->
  imageUrl <> EmptyString ->
  App.layers (app s) = Some layers ->
  let s' := handleExportPsd s in
  App.layers (app s') = Some layers
  /\ App.modalImage (app s') = App.modalImage (app s)
  /\ sent_ s' = sent_ s
  /\ App.isExportingPsd (app s') = false
  /\ match exportToPsd imageUrl layers with
     | Ok psdBytes =>
         downloads s' = downloads s ++ [(originalFileName file +:+ "-layers.psd", psdBytes)]
         /\ App.error (app s') = None
         /\ console_ s' = console_ s
     | Err err =>
         downloads s' = downloads s
         /\ App.error (app s') = Some "Failed to export PSD file."
         /\ console_ s' = console_ s ++ [(EmptyString, err)]
     end.
Proof.
  intros Hfile Hurl Hne Hlayers. cbv zeta. unfold handleExportPsd.
  rewrite Hfile, Hurl, Hlayers. cbn [truthyString].
  rewrite bool_decide_eq_false_2 by exact Hne. cbn [negb].
  destruct (exportToPsd imageUrl layers) as [psdBytes | err];
    cbn; rewrite Hlayers; repeat split; reflexivity.
Qed.

Lemma handleExportPsd_outcome_witness :
  let s' := handleExportPsd (H := demoBrowser) (demoSession posterFile [skyLayer]) in
  downloads s' = [("poster.final-layers.psd", [56; 66; 80; 83; 200; 200; 2])]
  /\ App.error (app s') = None.
Proof.
  cbv zeta.
  destruct (handleExportPsd_outcome (H := demoBrowser) (demoSession posterFile [skyLayer])
              posterFile "blob:canvas200" [skyLayer])
    as (_ & _ & _ & _ & Hcase); try reflexivity; [discriminate |].
  cbv zeta in Hcase.
  assert (Hbytes : exportToPsd (H := demoBrowser) "blob:canvas200" [skyLayer]
                   = Ok [56; 66; 80; 83; 200; 200; 2]) by (vm_compute; reflexivity).
  rewrite Hbytes in Hcase. destruct Hcase as (Hd & He & _).
  split; [rewrite Hd; reflexivity | exact He].
Defined.

(** * The layers panel *)

Lemma layerRows_lookup (layers : list Layer) (extracting : option nat)
      (index : nat) (row : LayerRow) :
  layerRows layers extracting !! index = Some row ->
  (index < length layers)%nat
  /\ layers !! (length layers - S index)%nat = Some (rowLayer row)
  /\ originalIndex row = (length layers - S index)%nat
  /\ isExtracting row = bool_decide (extracting = Some (originalIndex row))
  /\ hasExtractButton row = LayerType_eqb (type (rowLayer row)) image.
Proof.
  unfold layerRows. rewrite list_lookup_imap_Some. intros (layer & Hrev & ->).
  apply reverse_lookup_Some in Hrev as [Hlayer Hlt].
  cbn [originalIndex rowLayer isExtracting hasExtractButton].
  replace (length layers - 1 - index)%nat with (length layers - S index)%nat by lia.
  repeat split; first [assumption | reflexivity].
Qed.

(** X16.  The panel lists the layers top-most first, one item per layer.  The
    key of the item at position [index] is [length - 1 - index]; it is the
    index in [layers] of the layer the item shows, so hovering an item or
    pressing its extract button addresses the right layer.  The keys are the
    indices of [layers], each once.  An item is shown as extracting exactly
    when its key is the index under extraction, and it has an extract button
    exactly when its layer is an [image] layer. *)
Theorem layerRows_address_their_layers (layers : list Layer) (extracting : option nat) :
  let rows := layerRows layers extracting in
  length rows = length layers
  /\ map originalIndex rows = reverse (seq 0 (length layers))
  /\ forall index row,
       rows !! index = Some row ->
       originalIndex row = (length layers - 1 - index)%nat
       /\ layers !! originalIndex row = Some (rowLayer row)
       /\ (isExtracting row = true <-> extracting = Some (originalIndex row))
       /\ (hasExtractButton row = true <-> type (rowLayer row) = image).
Proof.
  cbv zeta. split; [| split].
  - unfold layerRows. rewrite length_imap. apply length_reverse.
  - apply list_eq. intros i.
    change (map originalIndex (layerRows layers extracting))
      with (originalIndex <$> layerRows layers extracting).
    rewrite list_lookup_fmap.
    destruct (layerRows layers extracting !! i) as [row |] eqn:Hrow.
    + destruct (layerRows_lookup _ _ _ _ Hrow) as (Hlt & _ & Hkey & _).
      cbn [fmap option_fmap option_map]. rewrite Hkey.
      rewrite reverse_lookup by (rewrite length_seq; exact Hlt).
      rewrite length_seq. symmetry. apply lookup_seq. lia.
    + cbn. symmetry. apply lookup_ge_None.
      rewrite length_reverse, length_seq.
      apply lookup_ge_None in Hrow. unfold layerRows in Hrow.
      rewrite length_imap, length_reverse in Hrow. exact Hrow.
  - intros index row Hrow.
    destruct (layerRows_lookup _ _ _ _ Hrow) as (Hlt & Hlayer & Hkey & Hex & Hbtn).
    split; [rewrite Hkey; lia |]. split; [rewrite Hkey; exact Hlayer |].
    split.
    + rewrite Hex. apply bool_decide_eq_true.
    + rewrite Hbtn. destruct (type (rowLayer row)); cbn; split; congruence.
Qed.

Lemma layerRows_address_their_layers_witness :
  map originalIndex (layerRows [skyLayer; plainCar; hairline] (Some 1%nat)) = [2; 1; 0]%nat
  /\ map isExtracting (layerRows [skyLayer; plainCar; hairline] (Some 1%nat))
     = [false; true; false].
Proof.
  split; [| reflexivity].
  exact (proj1 (proj2 (layerRows_address_their_layers [skyLayer; plainCar; hairline]
                         (Some 1%nat)))).
Defined.

(** X17.  The panel and the exported document agree on the order: without
    decode errors, the document layer at position [index] of the file is the
    one produced from the layer that the panel shows at position [index]. *)
Theorem layerRows_match_document_order `{Browser} (imageUrl : string) (layers : list Layer)
        (extracting : option nat) (index : nat) (row : LayerRow) :
  noDecodeErrors imageUrl layers = true ->
  layerRows layers extracting !! index = Some row ->
  exists base doc o,
    loadImageData imageUrl = Ok base
    /\ exportToPsd_document imageUrl layers = Ok doc
    /\ AgPsd.children doc !! index = Some o
    /\ produces (ImageData.width base) (ImageData.height base) (rowLayer row) o.
Proof.
  intros Hdec Hrow.
  destruct (layerRows_lookup _ _ _ _ Hrow) as (Hlt & Hlayer & _).
  destruct (exportToPsd_document_lookup imageUrl layers _ _ Hdec Hlayer)
    as (base & doc & o & Hbase & Hdoc & _ & _ & Ho & Hprod).
  exists base, doc, o. repeat (split; [assumption |]). split; [| exact Hprod].
  rewrite <- Ho. f_equal. lia.
Qed.

Lemma layerRows_match_document_order_witness :
  noDecodeErrors (H := demoBrowser) "blob:canvas200" [skyLayer; cutoutCar] = true
  /\ exists row doc o,
       layerRows [skyLayer; cutoutCar] None !! 0%nat = Some row
       /\ rowLayer row = cutoutCar
       /\ exportToPsd_document (H := demoBrowser) "blob:canvas200" [skyLayer; cutoutCar] = Ok doc
       /\ AgPsd.children doc !! 0%nat = Some o.
Proof.
  split; [vm_compute; reflexivity |].
  destruct (layerRows_match_document_order (H := demoBrowser) "blob:canvas200"
              [skyLayer; cutoutCar] None 0%nat
              (mkLayerRow 1 cutoutCar false true))
    as (base & doc & o & _ & Hdoc & Ho & _); [vm_compute; reflexivity | reflexivity |].
  exists (mkLayerRow 1 cutoutCar false true), doc, o.
  repeat split; first [reflexivity | assumption].
Defined.

(** * The description of a text layer *)

Lemma split_cons (sep a : ascii) (rest : string) :
  split sep (String a rest)
  = if Ascii.eqb a sep then EmptyString :: split sep rest
    else match split sep rest with
         | [] => [String a EmptyString]
         | part :: parts => String a part :: parts
         end.
Proof. reflexivity. Qed.

(** No part of a split holds the separator. *)
Lemma split_parts_without_separator (sep : ascii) (s : string) :
  Forall (fun part => includes sep part = false) (split sep s).
Proof.
  induction s as [| a rest IH]; [repeat constructor |].
  rewrite split_cons. destruct (Ascii.eqb a sep) eqn:Ha.
  - constructor; [reflexivity | exact IH].
  - destruct (split sep rest) as [| part pieces] eqn:Hsplit;
      [now apply split_not_nil in Hsplit |].
    inversion IH as [| ? ? Hpart Hpieces]; subst.
    constructor; [| exact Hpieces]. rewrite includes_cons, Ha, Hpart. reflexivity.
Qed.

(** A character other than the separator that occurs in the string occurs
    in one of the parts. *)
Lemma split_keeps_character (sep c : ascii) (s : string) :
  c <> sep -> includes c s = true ->
  Exists (fun part => includes c part = true) (split sep s).
Proof.
  intros Hc. induction s as [| a rest IH]; [discriminate |].
  rewrite includes_cons, split_cons. intros Hin.
  destruct (Ascii.eqb a sep) eqn:Ha.
  - apply Ascii.eqb_eq in Ha. subst a.
    destruct (Ascii.eqb sep c) eqn:Hsc; [apply Ascii.eqb_eq in Hsc; congruence |].
    apply Exists_cons_tl, IH. exact Hin.
  - destruct (split sep rest) as [| part pieces] eqn:Hsplit;
      [now apply split_not_nil in Hsplit |].
    destruct (Ascii.eqb a c) eqn:Hac.
    + apply Exists_cons_hd. rewrite includes_cons, Hac. reflexivity.
    + apply IH in Hin. inversion Hin as [? ? Hhd | ? ? Htl]; subst.
      * apply Exists_cons_hd. rewrite includes_cons, Hhd. apply orb_true_r.
      * apply Exists_cons_tl. exact Htl.
Qed.

Lemma propertyOf_is_Some (part : string) :
  is_Some (propertyOf part) <-> includes ":" part = true.
Proof.
  unfold propertyOf, includes. pose proof (indexOf_lower ":" part) as Hlow.
  destruct (indexOf ":" part =? -1) eqn:Hnone.
  - apply Z.eqb_eq in Hnone. rewrite Hnone. split; [intros [kv Hkv]; discriminate |].
    discriminate.
  - apply Z.eqb_neq in Hnone. split; [| eauto]. intros _. apply Z.leb_le. lia.
Qed.

(** X18.  [LayerDescription] shows a table exactly for a [text] layer whose
    description holds a colon, and the table then has at least one row: the
    fallback of the component for an empty list of properties is never
    taken.  Any other layer gets its description as a paragraph.  The table
    has one row for each comma-separated part that holds a colon, in order;
    the parts without a colon are left out. *)
Theorem LayerDescription_table_iff (layer : Layer) :
  (type layer = text /\ includes ":" (description layer) = true ->
   exists row rows,
     LayerDescription layer = PropertyTable (row :: rows)
     /\ length (row :: rows)
        = length (filter (fun part => includes ":" part = true)
                    (split "," (description layer))))
  /\ (type layer <> text \/ includes ":" (description layer) = false ->
      LayerDescription layer = Paragraph (description layer)).
Proof.
  unfold LayerDescription. split.
  - intros [Htype Hcolon]. rewrite Htype, Hcolon. cbn [LayerType_eqb negb orb].
    unfold properties.
    assert (Hlen : forall pieces : list string,
               length (omap propertyOf pieces)
               = length (filter (fun part => includes ":" part = true) pieces)).
    { induction pieces as [| part pieces IH]; [reflexivity |].
      cbn [omap list_omap]. rewrite filter_cons.
      pose proof (propertyOf_is_Some part) as Hsome.
      destruct (propertyOf part) as [kv |].
      - rewrite decide_True by (apply Hsome; eauto). cbn [length]. now rewrite IH.
      - rewrite decide_False; [exact IH |].
        intros Hin. apply Hsome in Hin. destruct Hin as [kv Hkv]. discriminate. }
    pose proof (split_keeps_character "," ":" (description layer) ltac:(discriminate) Hcolon)
      as Hex.
    destruct (omap propertyOf (split "," (description layer))) as [| row rows] eqn:Hprops.
    + exfalso. apply Exists_exists in Hex as (part & Hin & Hpart).
      apply propertyOf_is_Some in Hpart as [kv Hkv].
      assert (Hkvin : kv ∈ omap propertyOf (split "," (description layer))).
      { apply list_elem_of_omap. exists part. split; [exact Hin | exact Hkv]. }
      rewrite Hprops in Hkvin. inversion Hkvin.
    + exists row, rows. split; [reflexivity |]. rewrite <- Hprops. apply Hlen.
  - intros [Htype | Hcolon].
    + destruct (type layer); [reflexivity | reflexivity | congruence].
    + rewrite Hcolon. cbn [negb]. rewrite orb_true_r. reflexivity.
Qed.

Lemma LayerDescription_table_iff_witness :
  let title := mkLayer "Title" "Text: SALE, today only, Color Hex: #FFFFFF" text
                 (BoundingBox.mk 0 0 1 (1 # 5)) None in
  includes ":" (description title) = true
  /\ LayerDescription title = PropertyTable [("Text", "SALE"); ("Color Hex", "#FFFFFF")].
Proof.
  cbv zeta. split; [reflexivity |].
  destruct (proj1 (LayerDescription_table_iff
                     (mkLayer "Title" "Text: SALE, today only, Color Hex: #FFFFFF" text
                        (BoundingBox.mk 0 0 1 (1 # 5)) None)) (conj eq_refl eq_refl))
    as (row & rows & Hview & _).
  rewrite Hview. vm_compute in Hview. injection Hview as <- <-. reflexivity.
Defined.

Lemma includes_trimStart (c : ascii) (s : string) :
  includes c (trimStart s) = true -> includes c s = true.
Proof.
  induction s as [| a rest IH]; [discriminate |].
  cbn [trimStart]. destruct (isWhiteSpace a); [| trivial].
  intros Hin. rewrite includes_cons, (IH Hin). apply orb_true_r.
Qed.

Lemma includes_trimEnd (c : ascii) (s : string) :
  includes c (trimEnd s) = true -> includes c s = true.
Proof.
  induction s as [| a rest IH]; [discriminate |].
  cbn [trimEnd]. destruct (trimEnd rest) as [| b kept] eqn:Hkept.
  - destruct (isWhiteSpace a); [discriminate |].
    rewrite !includes_cons, includes_empty, orb_false_r. intros ->. reflexivity.
  - rewrite (includes_cons c a (String b kept)), (includes_cons c a rest).
    intros [Ha | Hrest]%orb_true_iff; [rewrite Ha; reflexivity |].
    rewrite (IH Hrest). apply orb_true_r.
Qed.

Lemma includes_trim (c : ascii) (s : string) :
  includes c (trim s) = true -> includes c s = true.
Proof. intros Hin. apply includes_trimStart, includes_trimEnd, Hin. Qed.

Lemma includes_String_substring (c : ascii) (s : string) :
  forall n m, includes c (String.substring n m s) = true -> includes c s = true.
Proof.
  induction s as [| a rest IH]; intros n m.
  - destruct n, m; discriminate.
  - destruct n as [| n].
    + destruct m as [| m]; [discriminate |].
      cbn [String.substring]. rewrite !includes_cons.
      intros [Ha | Hrest]%orb_true_iff; [rewrite Ha; reflexivity |].
      rewrite (IH _ _ Hrest). apply orb_true_r.
    + cbn [String.substring]. intros Hin. rewrite includes_cons, (IH _ _ Hin).
      apply orb_true_r.
Qed.

Lemma includes_substring (c : ascii) (s : string) (start stop : Z) :
  includes c (substring s start stop) = true -> includes c s = true.
Proof. unfold substring. apply includes_String_substring. Qed.

Lemma substring_before_first (c : ascii) (s : string) :
  includes c (String.substring 0 (Z.to_nat (indexOf c s)) s) = false.
Proof.
  induction s as [| a rest IH]; [reflexivity |].
  cbn [indexOf]. destruct (Ascii.eqb a c) eqn:Ha; [reflexivity |].
  pose proof (indexOf_lower c rest) as Hlow.
  destruct (indexOf c rest <? 0) eqn:Hneg; [reflexivity |].
  apply Z.ltb_ge in Hneg.
  replace (Z.to_nat (indexOf c rest + 1)) with (S (Z.to_nat (indexOf c rest))) by lia.
  cbn [String.substring]. rewrite includes_cons, Ha, IH. reflexivity.
Qed.

Lemma substring_0_first (c : ascii) (s : string) :
  0 <= indexOf c s ->
  substring s 0 (indexOf c s) = String.substring 0 (Z.to_nat (indexOf c s)) s.
Proof.
  intros Hpos. pose proof (indexOf_upper c s) as Hup. unfold substring.
  replace (Z.max 0 (Z.min 0 _)) with 0 by lia.
  replace (Z.max 0 (Z.min (indexOf c s) _)) with (indexOf c s) by lia.
  replace (Z.min 0 (indexOf c s)) with 0 by lia.
  replace (Z.max 0 (indexOf c s) - 0) with (indexOf c s) by lia.
  reflexivity.
Qed.

(** X19.  In the table of a text layer no label holds a colon, and neither
    labels nor values hold a comma: a label is what stands before the first
    colon of its comma-separated part, the value what stands after it. *)
Theorem LayerDescription_rows_clean (layer : Layer) (rows : list (string * string))
        (label value : string) :
  LayerDescription layer = PropertyTable rows ->
  (label, value) ∈ rows ->
  includes ":" label = false
  /\ includes "," label = false
  /\ includes "," value = false.
Proof.
  intros Hview Hrow.
  assert (Hrows : rows = properties (description layer)).
  { unfold LayerDescription in Hview.
    destruct (negb _ || negb _); [discriminate Hview |].
    destruct (length _ =? 0)%nat; [discriminate Hview |].
    injection Hview as <-. reflexivity. }
  subst rows. unfold properties in Hrow.
  apply list_elem_of_omap in Hrow as (part & Hpart & Hprop).
  pose proof (split_parts_without_separator "," (description layer)) as Hclean.
  rewrite Forall_forall in Hclean. specialize (Hclean part Hpart).
  unfold propertyOf in Hprop. pose proof (indexOf_lower ":" part) as Hlow.
  destruct (indexOf ":" part =? -1) eqn:Hnone; [discriminate Hprop |].
  apply Z.eqb_neq in Hnone. injection Hprop as <- <-.
  assert (Hnot : forall (c : ascii) (piece : string),
             (includes c piece = true -> includes c part = true) ->
             includes c part = false -> includes c piece = false).
  { intros c piece Himp Hno. destruct (includes c piece); [| reflexivity].
    rewrite (Himp eq_refl) in Hno. discriminate Hno. }
  split; [| split].
  - destruct (includes ":" (trim (substring part 0 (indexOf ":" part)))) eqn:Hin;
      [| reflexivity].
    apply includes_trim in Hin.
    rewrite substring_0_first, substring_before_first in Hin by lia. discriminate Hin.
  - apply Hnot; [| exact Hclean]. intros Hin.
    apply includes_trim, includes_substring in Hin. exact Hin.
  - apply Hnot; [| exact Hclean]. intros Hin.
    apply includes_trim in Hin. unfold substringFrom in Hin.
    apply includes_substring in Hin. exact Hin.
Qed.

Lemma LayerDescription_rows_clean_witness :
  let title := mkLayer "Title" "Text: SALE, today only, Color Hex: #FFFFFF" text
                 (BoundingBox.mk 0 0 1 (1 # 5)) None in
  LayerDescription title = PropertyTable [("Text", "SALE"); ("Color Hex", "#FFFFFF")]
  /\ includes ":" "Color Hex" = false.
Proof.
  cbv zeta. split; [reflexivity |].
  refine (proj1 (LayerDescription_rows_clean
                   (mkLayer "Title" "Text: SALE, today only, Color Hex: #FFFFFF" text
                      (BoundingBox.mk 0 0 1 (1 # 5)) None)
                   [("Text", "SALE"); ("Color Hex", "#FFFFFF")] "Color Hex" "#FFFFFF"
                   eq_refl _)).
  apply list_elem_of_In. right. left. reflexivity.
Defined.

(** * From extraction to export *)

(** X20.  Extraction followed by export: once the handler has cached a
    non-empty cutout on an [image] layer, the document assembled from the
    layers of the new state holds, at the place of that layer, the decoded
    cutout under the name [[Extracted] name] (provided nothing fails to
    decode), where a guide rectangle stood before. *)
Theorem handleExtractLayer_then_export `{GenAI} `{FileApi} `{Browser} (s : Session)
        (file : File) (layers : list Layer) (layerIndex : nat) (targetLayer : Layer)
        (base64Image extractedBase64 imageUrl : string) :
  App.imageFile (app s) = Some file ->
  App.layers (app s) = Some layers ->
  layers !! layerIndex = Some targetLayer ->
  type targetLayer = image ->
  truthyString (extractedImage targetLayer) = false ->
  fileToBase64 file = Ok base64Image ->
  snd (extractImageLayer base64Image (fileType file) layerIndex
         (mkWorld layers (console_ s) (sent_ s))) = Ok extractedBase64 ->
  extractedBase64 <> EmptyString ->
  noDecodeErrors imageUrl
    (<[layerIndex := withCache (Some extractedBase64) targetLayer]> layers) = true ->
  exists layers' doc cutout o,
    App.layers (app (fst (handleExtractLayer layerIndex s))) = Some layers'
    /\ exportToPsd_document imageUrl layers' = Ok doc
    /\ loadImageDataFromBase64 extractedBase64 = Ok cutout
    /\ AgPsd.children doc !! (length layers - S layerIndex)%nat = Some o
    /\ AgPsd.name o = "[Extracted] " +:+ name targetLayer
    /\ AgPsd.imageData o = ImageData.data cutout
    /\ AgPsd.opacity o = None.
Proof.
  intros Hfile Hlayers Htarget Htype Hmiss Hread Hok Hne Hdec.
  rewrite (handleExtractLayer_success_step s file layers layerIndex targetLayer
             Hfile Hlayers Htarget base64Image extractedBase64 Hmiss Hread Hok) in *.
  cbn [fst app App.layers] in *.
  set (layers' := <[layerIndex := withCache (Some extractedBase64) targetLayer]> layers) in *.
  assert (Hlt : (layerIndex < length layers)%nat) by (now apply lookup_lt_Some in Htarget).
  assert (Hnew : layers' !! layerIndex = Some (withCache (Some extractedBase64) targetLayer)).
  { subst layers'. now apply list_lookup_insert_eq. }
  destruct (exportToPsd_document_lookup imageUrl layers' layerIndex _ Hdec Hnew)
    as (base & doc & o & _ & Hdoc & _ & _ & Ho & Hprod).
  assert (Hex : isExtractedImage (withCache (Some extractedBase64) targetLayer) = true).
  { unfold isExtractedImage. cbn [withCache type extractedImage truthyString].
    rewrite Htype, bool_decide_eq_false_2 by exact Hne. reflexivity. }
  destruct Hprod as [cutout _ Hload | Hguide]; [| rewrite Hex in Hguide; discriminate].
  exists layers', doc, cutout,
    (cutoutLayer (ImageData.width base) (ImageData.height base)
       (withCache (Some extractedBase64) targetLayer) cutout).
  split; [reflexivity |]. split; [exact Hdoc |]. split; [exact Hload |].
  split; [| repeat split].
  subst layers'. rewrite length_insert in Ho. exact Ho.
Qed.

Lemma handleExtractLayer_then_export_witness :
  let s := demoSession posterFile [skyLayer; plainCar] in
  exists layers' doc o,
    App.layers (app (fst (handleExtractLayer (H := demoGenAI) (H0 := demoFileApi) 1%nat s)))
    = Some layers'
    /\ exportToPsd_document (H := demoBrowser) "blob:canvas200" layers' = Ok doc
    /\ AgPsd.children doc !! 0%nat = Some o
    /\ AgPsd.name o = "[Extracted] Car".
Proof.
  cbv zeta.
  destruct (handleExtractLayer_then_export (H := demoGenAI) (H0 := demoFileApi)
              (H1 := demoBrowser) (demoSession posterFile [skyLayer; plainCar]) posterFile
              [skyLayer; plainCar] 1%nat plainCar "Y2Fy" "Y3V0b3V0" "blob:canvas200")
    as (layers' & doc & cutout & o & Hl & Hdoc & _ & Ho & Hname & _);
    [reflexivity | reflexivity | reflexivity | reflexivity | reflexivity | reflexivity
     | reflexivity | discriminate | vm_compute; reflexivity |].
  exists layers', doc, o. repeat split; assumption.
Defined.
